(** * Verification of the deep-learning course notebooks

    The repository holds four Jupyter notebooks (a single neuron, deep
    neural networks, overfitting with early stopping, dropout with batch
    normalisation).  Every code cell is a straight line of calls into
    pandas, Keras and matplotlib.  The development below embeds

    - the values the cells build: data frames, series, layer descriptors,
      callbacks, models;
    - the library calls the cells make, as operations of a state and
      exception monad over the kernel's world (files, random generator,
      displayed outputs, log of library calls);
    - the cells and notebooks themselves, as programs of that monad.

    Two library routines stay abstract, as fields of the class [Backend]:
    numpy's sampling without replacement and Keras' optimisation loop. *)

From Stdlib Require Import QArith Qminmax Qround Lqa.
From stdpp Require Import base list strings gmap.

(** ** Numbers

    pandas stores the columns as float64.  Finite values are kept as exact
    rationals; the three special values appear through division by zero
    and reductions over nothing.  Rounding and signed zeros are left out. *)

Inductive float64 : Type :=
| Fin (q : Q)
| PInf
| NInf
| NaN.

Definition is_finite (x : float64) : bool :=
  match x with Fin _ => true | _ => false end.

(** [a - b] *)
Definition fsub (a b : float64) : float64 :=
  match a, b with
  | NaN, _ | _, NaN => NaN
  | Fin x, Fin y => Fin (x - y)
  | Fin _, PInf => NInf
  | Fin _, NInf => PInf
  | PInf, PInf => NaN
  | PInf, _ => PInf
  | NInf, NInf => NaN
  | NInf, _ => NInf
  end.

(** [a / b]; numpy does not raise on a zero divisor, it yields an
    infinity or NaN. *)
Definition fdiv (a b : float64) : float64 :=
  match a, b with
  | NaN, _ | _, NaN => NaN
  | Fin x, Fin y =>
      if Qeq_bool y 0 then
        match (x ?= 0)%Q with Gt => PInf | Lt => NInf | Eq => NaN end
      else Fin (x / y)
  | Fin _, _ => Fin 0
  | PInf, Fin y => if Qle_bool 0 y then PInf else NInf
  | NInf, Fin y => if Qle_bool 0 y then NInf else PInf
  | _, _ => NaN
  end.

(** [max] and [min] of two values, NaN skipped (skipna=True). *)
Definition fmax (a b : float64) : float64 :=
  match a, b with
  | NaN, y => y
  | x, NaN => x
  | PInf, _ | _, PInf => PInf
  | NInf, y => y
  | x, NInf => x
  | Fin x, Fin y => Fin (Qmax x y)
  end.

Definition fmin (a b : float64) : float64 :=
  match a, b with
  | NaN, y => y
  | x, NaN => x
  | NInf, _ | _, NInf => NInf
  | PInf, y => y
  | x, PInf => x
  | Fin x, Fin y => Fin (Qmin x y)
  end.

(** Python's [round] on a non-negative rational: half to even. *)
Definition py_round (x : Q) : nat :=
  let f := Qfloor x in
  let r := (x - inject_Z f)%Q in
  Z.to_nat
    (match (r ?= 1 # 2)%Q with
     | Lt => f
     | Gt => f + 1
     | Eq => if Z.even f then f else f + 1
     end)%Z.

(** ** Data frames and series *)

(** A series: values under labels, in order. *)
Abbreviation Series L := (list (L * float64)) (only parsing).

(** A data frame: column labels, and the rows in order, each with its
    index label and its cells in column order. *)
Record DataFrame : Type := mkDataFrame {
  columns : list string;
  rows : list (nat * list float64)
}.

(** A parsed CSV file: the header line and the numeric records. *)
Record table : Type := mkTable {
  header : list string;
  records : list (list Q)
}.

Module Frame.

Definition index (df : DataFrame) : list nat := (rows df).*1.


(** The cells of column [j], top to bottom. *)
Definition column_cells (df : DataFrame) (j : nat) : list float64 :=
  omap (λ r : nat * list float64, r.2 !! j) (rows df).


(** [df.take(locs)]: the rows at the given positions; [None] when a
    position is out of bounds. *)
Definition take (df : DataFrame) (locs : list nat) : option DataFrame :=
  rs ← mapM (λ p, rows df !! p) locs;
  Some (mkDataFrame (columns df) rs).

(** [df.head(n)] *)
Definition head (df : DataFrame) (n : nat) : DataFrame :=
  mkDataFrame (columns df) (firstn n (rows df)).

(** [df.drop(labels)] on rows: every row whose label is listed goes;
    [None] (a KeyError) when a listed label is not in the index. *)
Definition drop (df : DataFrame) (labels : list nat) : option DataFrame :=
  if decide (labels ⊆ index df)
  then Some (mkDataFrame (columns df)
               (filter (λ r : nat * list float64, r.1 ∉ labels) (rows df)))
  else None.

(** [df.drop(label, axis=1)]: every column under that label goes. *)
Definition drop_cells (cols : list string) (label : string)
    (cells : list float64) : list float64 :=
  (filter (λ p : string * float64, p.1 ≠ label) (zip cols cells)).*2.

Definition drop_column (df : DataFrame) (label : string) : option DataFrame :=
  if decide (label ∈ columns df)
  then Some (mkDataFrame
               (filter (λ c, c ≠ label) (columns df))
               (prod_map id (drop_cells (columns df) label) <$> rows df))
  else None.

(** Position of the first column under [label]. *)
Definition column_position (df : DataFrame) (label : string) : option nat :=
  fst <$> list_find (λ c, c = label) (columns df).

(** [df[label]] *)
Definition getitem (df : DataFrame) (label : string) : option (Series nat) :=
  j ← column_position df label;
  Some (omap (λ r : nat * list float64, pair r.1 <$> r.2 !! j) (rows df)).

(** Reductions of a list of values; NaN when there is nothing to reduce. *)
Definition reduce (op : float64 → float64 → float64) (l : list float64) : float64 :=
  foldr op NaN l.

(** The largest and the smallest value of column [j]. *)
Definition column_max (df : DataFrame) (j : nat) : float64 :=
  reduce fmax (column_cells df j).

Definition column_min (df : DataFrame) (j : nat) : float64 :=
  reduce fmin (column_cells df j).

(** [df.max(axis=0)] and [df.min(axis=0)]: one value per column. *)
Definition max (df : DataFrame) : Series string :=
  imap (λ j c, (c, column_max df j)) (columns df).

Definition min (df : DataFrame) : Series string :=
  imap (λ j c, (c, column_min df j)) (columns df).

(** [s1 - s2] on two series over the same labels. *)
Definition series_sub (s1 s2 : Series string) : Series string :=
  zip_with (λ a b : string * float64, (a.1, fsub a.2 b.2)) s1 s2.

(** [df - s] and [df / s]: the series is broadcast along the rows.
    pandas aligns the series' labels with the column labels; in every
    use below the series comes from a reduction of a frame with the same
    columns, so the alignment is positional. *)
Definition broadcast (op : float64 → float64 → float64)
    (df : DataFrame) (s : Series string) : DataFrame :=
  mkDataFrame (columns df)
    (prod_map id (λ cells, zip_with (λ x (m : string * float64), op x m.2) cells s)
       <$> rows df).

Definition sub := broadcast fsub.
Definition div := broadcast fdiv.

(** [df.loc[:, labels]]: the columns under the given labels, in that
    order; [None] (a KeyError) when one is missing. *)
Definition loc_columns (df : DataFrame) (labels : list string) : option DataFrame :=
  js ← mapM (column_position df) labels;
  Some (mkDataFrame labels
          (prod_map id (λ cells : list float64, omap (λ j, cells !! j) js) <$> rows df)).

(** The frame [pd.read_csv] builds: the header as columns, a fresh
    range index 0, 1, 2, ... *)
Definition frame_of (t : table) : DataFrame :=
  mkDataFrame (header t) (imap (λ i r, (i, Fin <$> r)) (records t)).

End Frame.

(** ** Keras values *)

Inductive layer : Type :=
| Dense (units : nat) (activation : option string) (input_shape : option (list nat))
| Dropout (rate : Q)
| BatchNormalization
| Activation (fn : string).

Definition layer_units (l : layer) : option nat :=
  match l with Dense u _ _ => Some u | _ => None end.

Definition layer_activation (l : layer) : option string :=
  match l with
  | Dense _ a _ => a
  | Activation fn => Some fn
  | _ => None
  end.

Definition layer_input_shape (l : layer) : option (list nat) :=
  match l with Dense _ _ s => s | _ => None end.

Record EarlyStopping : Type := mkEarlyStopping {
  min_delta : Q;
  patience : nat;
  restore_best_weights : bool
}.

(** A model: its layers, and the optimizer and loss once compiled.
    [compile] and [fit] update the Python object in place; here the
    updated value is passed on under the same name. *)
Record Model : Type := mkModel {
  layers : list layer;
  compiled : option (string * string)
}.

(** [history.history]: the loss and validation loss of each epoch run. *)
Record History : Type := mkHistory {
  loss : list float64;
  val_loss : list float64
}.

(** The arguments of [model.fit]. *)
Record FitArgs : Type := mkFitArgs {
  fit_x : DataFrame;
  fit_y : Series nat;
  validation_data : DataFrame * Series nat;
  batch_size : nat;
  epochs : nat;
  callbacks : list EarlyStopping;
  verbose : nat
}.

(** The input width a model declares on its first layer. *)
Definition declared_inputs (m : Model) : option (list nat) :=
  l ← layers m !! 0; layer_input_shape l.

(** The check Keras makes on the width of the data given to a model. *)
Definition accepts (m : Model) (x : DataFrame) : bool :=
  match declared_inputs m with
  | Some shape => bool_decide (shape = [length (columns x)])
  | None => true
  end.

(** ** Exceptions, outputs and the log of library calls *)

Inductive exn : Type :=
| FileNotFoundError (path : string)
| KeyError
| IndexError
| ValueError
| RuntimeError.

Inductive output : Type :=
| out_frame (df : DataFrame)
| out_text (template : string) (args : list float64)
| out_figure (df : DataFrame)
| out_summary (m : Model)
| out_model (m : Model)
| out_layers (ls : list layer).

Inductive call : Type :=
| call_style_use (style : string)
| call_rc (group : string)
| call_read_csv (path : string)
| call_sample (frac : Q) (random_state : option nat)
| call_drop_index
| call_drop_columns (label : string)
| call_getitem (label : string)
| call_head (n : nat)
| call_display
| call_max
| call_min
| call_sub
| call_div
| call_Sequential (config : list layer)
| call_EarlyStopping (cb : EarlyStopping)
| call_compile (optimizer loss_name : string)
| call_summary
| call_fit (n_epochs n_callbacks : nat)
| call_DataFrame
| call_loc (labels : list string)
| call_plot
| call_print.

(** Which exception a library call can raise. *)
Definition may_raise (c : call) (e : exn) : Prop :=
  match c, e with
  | call_read_csv p, FileNotFoundError q => p = q
  | call_sample _ _, (ValueError | IndexError) => True
  | (call_drop_index | call_drop_columns _ | call_getitem _ | call_loc _), KeyError => True
  | call_fit _ _, (ValueError | RuntimeError) => True
  | _, _ => False
  end.

(** ** The routines left abstract *)

Class Backend : Type := mkBackend {
  (** state of a numpy generator *)
  RandomState : Type;
  (** [np.random.RandomState(seed)] *)
  seeded : nat → RandomState;
  (** [rs.choice(a, size, replace=False)]: [size] positions below [a],
      and the generator's next state *)
  choice : RandomState → nat → nat → list nat * RandomState;
  (** the optimisation loop behind [model.fit] *)
  optimise : RandomState → Model → FitArgs → History * RandomState
}.

(** What numpy documents of [choice]: [size] distinct positions below [a]. *)
Definition choice_spec `{Backend} : Prop :=
  ∀ rs a size, size ≤ a →
    NoDup (choice rs a size).1 ∧
    length (choice rs a size).1 = size ∧
    Forall (λ p, p < a) (choice rs a size).1.

(** ** The kernel: a state and exception monad *)

Inductive outcome (A : Type) : Type :=
| Returned (a : A)
| Raised (e : exn).
Arguments Returned {A} a.
Arguments Raised {A} e.

Section Kernel.
Context `{Backend}.

(** What a run of a notebook can touch. *)
Record World : Type := mkWorld {
  files : gmap string table;     (* the CSV files on disk *)
  np_random : RandomState;       (* numpy's global generator *)
  tf_random : RandomState;       (* TensorFlow's global generator *)
  outputs : list output;         (* what the cells have displayed *)
  calls : list call;             (* the library calls made so far *)
  raised : list exn              (* the exceptions raised so far *)
}.

Definition nb (A : Type) : Type := World → outcome A * World.

#[global] Instance nb_ret : MRet nb := λ A a w, (Returned a, w).

#[global] Instance nb_bind : MBind nb := λ A B k m w,
  match m w with
  | (Returned a, w') => k a w'
  | (Raised e, w') => (Raised e, w')
  end.

Definition raise {A} (e : exn) : nb A := λ w,
  (Raised e,
   mkWorld (files w) (np_random w) (tf_random w) (outputs w) (calls w)
     (raised w ++ [e])).

Definition expect {A} (o : option A) (e : exn) : nb A :=
  match o with Some a => mret a | None => raise e end.

Definition called (c : call) : nb unit := λ w,
  (Returned tt,
   mkWorld (files w) (np_random w) (tf_random w) (outputs w) (calls w ++ [c])
     (raised w)).

Definition shown (o : output) : nb unit := λ w,
  (Returned tt,
   mkWorld (files w) (np_random w) (tf_random w) (outputs w ++ [o]) (calls w)
     (raised w)).

Definition on_disk (path : string) : nb (option table) := λ w,
  (Returned (files w !! path), w).

(** Draw from a fresh generator when a seed is given, from numpy's
    global one, which moves on, when not. *)
Definition draw (random_state : option nat) (a size : nat) : nb (list nat) := λ w,
  match random_state with
  | Some seed => (Returned (choice (seeded seed) a size).1, w)
  | None =>
      let r := choice (np_random w) a size in
      (Returned r.1,
       mkWorld (files w) r.2 (tf_random w) (outputs w) (calls w) (raised w))
  end.

Definition training (model : Model) (args : FitArgs) : nb History := λ w,
  let r := optimise (tf_random w) model args in
  (Returned r.1,
   mkWorld (files w) (np_random w) r.2 (outputs w) (calls w) (raised w)).

(** *** matplotlib *)

Definition plt_style_use (style : string) : nb unit :=
  called (call_style_use style).

Definition plt_rc (group : string) : nb unit :=
  called (call_rc group).

(** *** pandas *)

Definition pd_read_csv (path : string) : nb DataFrame :=
  called (call_read_csv path);;
  t ← on_disk path;
  expect (Frame.frame_of <$> t) (FileNotFoundError path).

Definition df_sample (df : DataFrame) (frac : Q) (random_state : option nat)
    : nb DataFrame :=
  called (call_sample frac random_state);;
  if Qle_bool frac 1 then
    let a := length (rows df) in
    locs ← draw random_state a (py_round (frac * inject_Z (Z.of_nat a)));
    expect (Frame.take df locs) IndexError
  else raise ValueError.

Definition df_drop (df : DataFrame) (labels : list nat) : nb DataFrame :=
  called call_drop_index;;
  expect (Frame.drop df labels) KeyError.

Definition df_drop_axis1 (df : DataFrame) (label : string) : nb DataFrame :=
  called (call_drop_columns label);;
  expect (Frame.drop_column df label) KeyError.

Definition df_getitem (df : DataFrame) (label : string) : nb (Series nat) :=
  called (call_getitem label);;
  expect (Frame.getitem df label) KeyError.

Definition df_head (df : DataFrame) (n : nat) : nb DataFrame :=
  called (call_head n);; mret (Frame.head df n).

Definition display (df : DataFrame) : nb unit :=
  called call_display;; shown (out_frame df).

Definition df_max (df : DataFrame) : nb (Series string) :=
  called call_max;; mret (Frame.max df).

Definition df_min (df : DataFrame) : nb (Series string) :=
  called call_min;; mret (Frame.min df).

Definition series_min (s : Series nat) : nb float64 :=
  called call_min;; mret (Frame.reduce fmin s.*2).

Definition df_sub (df : DataFrame) (s : Series string) : nb DataFrame :=
  called call_sub;; mret (Frame.sub df s).

Definition series_sub (s1 s2 : Series string) : nb (Series string) :=
  called call_sub;; mret (Frame.series_sub s1 s2).

Definition df_div (df : DataFrame) (s : Series string) : nb DataFrame :=
  called call_div;; mret (Frame.div df s).

Definition history_frame (h : History) : DataFrame :=
  mkDataFrame ["loss"; "val_loss"]
    (imap (λ i (p : float64 * float64), (i, [p.1; p.2])) (zip (loss h) (val_loss h))).

Definition pd_DataFrame (h : History) : nb DataFrame :=
  called call_DataFrame;; mret (history_frame h).

Definition df_loc (df : DataFrame) (labels : list string) : nb DataFrame :=
  called (call_loc labels);;
  expect (Frame.loc_columns df labels) KeyError.

Definition df_plot (df : DataFrame) : nb unit :=
  called call_plot;; shown (out_figure df).

Definition print (template : string) (args : list float64) : nb unit :=
  called call_print;; shown (out_text template args).

(** *** Keras *)

Definition keras_Sequential (config : list layer) : nb Model :=
  called (call_Sequential config);; mret (mkModel config None).

Definition callbacks_EarlyStopping (min_delta : Q) (patience : nat)
    (restore_best_weights : bool) : nb EarlyStopping :=
  let cb := mkEarlyStopping min_delta patience restore_best_weights in
  called (call_EarlyStopping cb);; mret cb.

Definition model_compile (model : Model) (optimizer loss_name : string) : nb Model :=
  called (call_compile optimizer loss_name);;
  mret (mkModel (layers model) (Some (optimizer, loss_name))).

Definition model_summary (model : Model) : nb unit :=
  called call_summary;; shown (out_summary model).

Definition model_fit (model : Model) (args : FitArgs) : nb History :=
  called (call_fit (epochs args) (length (callbacks args)));;
  if compiled model is Some _ then
    if accepts model (fit_x args) && accepts model (validation_data args).1
    then training model args
    else raise ValueError
  else raise RuntimeError.

(** ** The notebooks

    A cell is a program of [nb]; the names it binds for later cells are
    its result.  A notebook runs its code cells from top to bottom. *)

Definition relu : option string := Some "relu".

(** *** Steps the two training notebooks share *)

(** [[
df_train = red_wine.sample(frac=0.7, random_state=0)
df_valid = red_wine.drop(df_train.index)
]] *)
Definition split_step (red_wine : DataFrame) : nb (DataFrame * DataFrame) :=
  df_train ← df_sample red_wine 0.7 (Some 0);
  df_valid ← df_drop red_wine (Frame.index df_train);
  mret (df_train, df_valid).

(** [[
X_train = df_train.drop('quality', axis=1)
X_valid = df_valid.drop('quality', axis=1)
y_train = df_train['quality']
y_valid = df_valid['quality']
]] *)
Definition features_target (df_train df_valid : DataFrame)
    : nb (DataFrame * DataFrame * Series nat * Series nat) :=
  X_train ← df_drop_axis1 df_train "quality";
  X_valid ← df_drop_axis1 df_valid "quality";
  y_train ← df_getitem df_train "quality";
  y_valid ← df_getitem df_valid "quality";
  mret (X_train, X_valid, y_train, y_valid).

(** [[
history_df = pd.DataFrame(history.history)
history_df.loc[:, ['loss', 'val_loss']].plot();
]] *)
Definition plot_history (history : History) : nb DataFrame :=
  history_df ← pd_DataFrame history;
  curves ← df_loc history_df ["loss"; "val_loss"];
  df_plot curves;;
  mret history_df.

(** *** single_neuron.ipynb *)

Definition single_neuron_model : list layer :=
  [Dense 1 None (Some [3])].

Definition single_neuron : nb unit :=
  model ← keras_Sequential single_neuron_model;
  mret tt.

(** *** deep_neural_networks.ipynb, first document *)

Definition deep_model : list layer :=
  [Dense 4 relu (Some [2]);
   Dense 3 relu None;
   Dense 1 None None].

Definition deep_neural_networks : nb unit :=
  model ← keras_Sequential deep_model;
  mret tt.

(** *** The overfitting and early stopping notebook (unnamed/part_000) *)

Definition capacity_model : list layer := [Dense 16 relu None; Dense 1 None None].
Definition capacity_wider : list layer := [Dense 32 relu None; Dense 1 None None].
Definition capacity_deeper : list layer :=
  [Dense 16 relu None; Dense 16 relu None; Dense 1 None None].

Definition overfitting_cell1 : nb (Model * Model * Model) :=
  model ← keras_Sequential capacity_model;
  wider ← keras_Sequential capacity_wider;
  deeper ← keras_Sequential capacity_deeper;
  mret (model, wider, deeper).

Definition overfitting_cell2 : nb EarlyStopping :=
  callbacks_EarlyStopping 0.001 20 true.

(** [[
max_ = df_train.max(axis=0)
min_ = df_train.min(axis=0)
df_train = (df_train - min_) / (max_ - min_)
df_valid = (df_valid - min_) / (max_ - min_)
]] *)
Definition scale_step (df_train df_valid : DataFrame) : nb (DataFrame * DataFrame) :=
  max_ ← df_max df_train;
  min_ ← df_min df_train;
  num ← df_sub df_train min_;
  den ← series_sub max_ min_;
  df_train ← df_div num den;
  num ← df_sub df_valid min_;
  den ← series_sub max_ min_;
  df_valid ← df_div num den;
  mret (df_train, df_valid).

Definition overfitting_cell3
    : nb (DataFrame * DataFrame * Series nat * Series nat) :=
  red_wine ← pd_read_csv "../data/red-wine.csv";
  '(df_train, df_valid) ← split_step red_wine;
  top ← df_head df_train 4;
  display top;;
  '(df_train, df_valid) ← scale_step df_train df_valid;
  features_target df_train df_valid.

Definition overfitting_model : list layer :=
  [Dense 512 relu (Some [11]);
   Dense 512 relu None;
   Dense 512 relu None;
   Dense 1 None None].

Definition overfitting_cell4 : nb (EarlyStopping * Model) :=
  early_stopping ← callbacks_EarlyStopping 0.001 20 true;
  model ← keras_Sequential overfitting_model;
  model ← model_compile model "adam" "mae";
  mret (early_stopping, model).

Definition overfitting_cell5 (X_train X_valid : DataFrame)
    (y_train y_valid : Series nat) (early_stopping : EarlyStopping)
    (model : Model) : nb unit :=
  history ← model_fit model
    (mkFitArgs X_train y_train (X_valid, y_valid) 256 500 [early_stopping] 0);
  history_df ← plot_history history;
  val ← df_getitem history_df "val_loss";
  lowest ← series_min val;
  print "Minimum validation loss: {}" [lowest].

Definition overfitting : nb unit :=
  overfitting_cell1;;
  overfitting_cell2;;
  '(X_train, X_valid, y_train, y_valid) ← overfitting_cell3;
  '(early_stopping, model) ← overfitting_cell4;
  overfitting_cell5 X_train X_valid y_train y_valid early_stopping model.

(** *** The dropout and batch normalisation notebook
    (deep_neural_networks.ipynb, second document) *)

Definition dropout_sketch : list layer := [Dropout 0.3; Dense 16 None None].

Definition dropout_cell1 : nb unit :=
  m ← keras_Sequential dropout_sketch;
  shown (out_model m).

(** Two cells that only list layers, outside any model. *)
Definition dropout_cell2 : nb unit :=
  shown (out_layers [Dense 16 relu None; BatchNormalization]).

Definition dropout_cell3 : nb unit :=
  shown (out_layers [Dense 16 None None; BatchNormalization; Activation "relu"]).

Definition dropout_cell4
    : nb (DataFrame * DataFrame * Series nat * Series nat) :=
  plt_style_use "seaborn-whitegrid";;
  plt_rc "figure";;
  plt_rc "axes";;
  red_wine ← pd_read_csv "../data/red-wine.csv";
  '(df_train, df_valid) ← split_step red_wine;
  features_target df_train df_valid.

Definition dropout_model : list layer :=
  [Dense 1024 relu (Some [11]);
   Dropout 0.3;
   BatchNormalization;
   Dense 1024 relu None;
   Dropout 0.3;
   BatchNormalization;
   Dense 1024 relu None;
   Dropout 0.3;
   BatchNormalization;
   Dense 1 None None].

Definition dropout_cell5 : nb Model :=
  model ← keras_Sequential dropout_model;
  model_summary model;;
  mret model.

Definition dropout_cell6 (X_train X_valid : DataFrame)
    (y_train y_valid : Series nat) (model : Model) : nb unit :=
  model ← model_compile model "adam" "mae";
  history ← model_fit model
    (mkFitArgs X_train y_train (X_valid, y_valid) 256 100 [] 0);
  history_df ← plot_history history;
  mret tt.

Definition dropout_batchnorm : nb unit :=
  dropout_cell1;;
  dropout_cell2;;
  dropout_cell3;;
  '(X_train, X_valid, y_train, y_valid) ← dropout_cell4;
  model ← dropout_cell5;
  dropout_cell6 X_train X_valid y_train y_valid model.

Definition notebooks : list (nb unit) :=
  [single_neuron; deep_neural_networks; overfitting; dropout_batchnorm].

(** The notebooks that call [fit]. *)
Definition training_notebooks : list (nb unit) :=
  [overfitting; dropout_batchnorm].

End Kernel.

(** ** Reading the log of library calls *)

(** The steps of the training pipeline; anything else is [Other]. *)
Inductive step : Type := Load | Split | Construct | Fit | Plot | Other.

#[global] Instance step_eq_dec : EqDecision step.
Proof. solve_decision. Defined.

Definition step_of (c : call) : step :=
  match c with
  | call_read_csv _ => Load
  | call_sample _ _ | call_drop_index => Split
  | call_Sequential _ => Construct
  | call_fit _ _ => Fit
  | call_plot => Plot
  | _ => Other
  end.



(** The configurations given to [keras.Sequential]. *)
Definition configs (cs : list call) : list (list layer) :=
  omap (λ c, if c is call_Sequential config then Some config else None) cs.

(** The paths given to [pd.read_csv], the one call that opens a file. *)
Definition paths_read (cs : list call) : list string :=
  omap (λ c, if c is call_read_csv path then Some path else None) cs.


(** A descriptor as the data model has it carries a unit count. *)
Definition carries_units (l : layer) : Prop := is_Some (layer_units l).

(** The descriptors the notebooks give to [keras.Sequential]: a dense
    layer (unit count, optional activation, optional input shape), a
    dropout layer (rate) or a batch normalisation layer (no argument). *)
Definition descriptor (l : layer) : bool :=
  match l with
  | Dense _ _ _ | Dropout _ | BatchNormalization => true
  | Activation _ => false
  end.

(** An input shape is declared on a first layer only. *)
Definition shape_on_first_only (config : list layer) : bool :=
  forallb (λ l, bool_decide (layer_input_shape l = None)) (tail config).

(** The header of red-wine.csv, as the notebook displays it. *)
Definition red_wine_header : list string :=
  ["fixed acidity"; "volatile acidity"; "citric acid"; "residual sugar";
   "chlorides"; "free sulfur dioxide"; "total sulfur dioxide"; "density";
   "pH"; "sulphates"; "alcohol"; "quality"].

(** The library calls of a complete run of each notebook, in order. *)
Definition single_neuron_calls : list call :=
  [call_Sequential single_neuron_model].

Definition deep_neural_networks_calls : list call :=
  [call_Sequential deep_model].

Definition overfitting_calls : list call :=
  [call_Sequential capacity_model;
   call_Sequential capacity_wider;
   call_Sequential capacity_deeper;
   call_EarlyStopping (mkEarlyStopping 0.001 20 true);
   call_read_csv "../data/red-wine.csv";
   call_sample 0.7 (Some 0);
   call_drop_index;
   call_head 4;
   call_display;
   call_max; call_min;
   call_sub; call_sub; call_div;
   call_sub; call_sub; call_div;
   call_drop_columns "quality"; call_drop_columns "quality";
   call_getitem "quality"; call_getitem "quality";
   call_EarlyStopping (mkEarlyStopping 0.001 20 true);
   call_Sequential overfitting_model;
   call_compile "adam" "mae";
   call_fit 500 1;
   call_DataFrame; call_loc ["loss"; "val_loss"]; call_plot;
   call_getitem "val_loss"; call_min;
   call_print].

Definition dropout_batchnorm_calls : list call :=
  [call_Sequential dropout_sketch;
   call_style_use "seaborn-whitegrid"; call_rc "figure"; call_rc "axes";
   call_read_csv "../data/red-wine.csv";
   call_sample 0.7 (Some 0);
   call_drop_index;
   call_drop_columns "quality"; call_drop_columns "quality";
   call_getitem "quality"; call_getitem "quality";
   call_Sequential dropout_model;
   call_summary;
   call_compile "adam" "mae";
   call_fit 100 0;
   call_DataFrame; call_loc ["loss"; "val_loss"]; call_plot].

(** ** How a program uses the libraries

    [obeys m cs]: whatever the world, [m] leaves the files alone; when it
    returns it has made exactly the calls [cs] and no exception was
    raised on the way; when it raises [e], it has made a prefix of [cs],
    [e] is the one exception raised on the way, and [e] is an exception
    the last call made can raise. *)
Definition obeys `{Backend} {A} (m : nb A) (cs : list call) : Prop :=
  ∀ w,
    files (m w).2 = files w ∧
    match (m w).1 with
    | Returned _ =>
        calls (m w).2 = calls w ++ cs ∧ raised (m w).2 = raised w
    | Raised e =>
        raised (m w).2 = raised w ++ [e] ∧
        ∃ before c, calls (m w).2 = calls w ++ before ++ [c] ∧
                    (before ++ [c]) `prefix_of` cs ∧ may_raise c e
    end.

(** [ensures m P]: whatever [m] returns satisfies [P]. *)
Definition ensures `{Backend} {A} (m : nb A) (P : A → Prop) : Prop :=
  ∀ w a, (m w).1 = Returned a → P a.

(** [succeeds fs m P]: on the files [fs], [m] returns, and what it
    returns satisfies [P]. *)
Definition succeeds `{Backend} {A} (fs : gmap string table) (m : nb A)
    (P : A → Prop) : Prop :=
  ∀ w, files w = fs → ∃ a w', m w = (Returned a, w') ∧ files w' = fs ∧ P a.

(** A frame under the columns [cols] whose rows all have [n] cells. *)
Definition shaped (cols : list string) (n : nat) (df : DataFrame) : Prop :=
  columns df = cols ∧ Forall (λ r : nat * list float64, length r.2 = n) (rows df).

(** The columns left once the target is dropped. *)
Definition red_wine_features : list string :=
  ["fixed acidity"; "volatile acidity"; "citric acid"; "residual sugar";
   "chlorides"; "free sulfur dioxide"; "total sulfur dioxide"; "density";
   "pH"; "sulphates"; "alcohol"].

(** [quiet c m]: the body of the library call [c]; it logs nothing,
    leaves the files alone and raises only what [c] can raise. *)
Definition quiet `{Backend} {A} (c : call) (m : nb A) : Prop :=
  ∀ w,
    files (m w).2 = files w ∧ calls (m w).2 = calls w ∧
    match (m w).1 with
    | Returned _ => raised (m w).2 = raised w
    | Raised e => raised (m w).2 = raised w ++ [e] ∧ may_raise c e
    end.

(** ** A backend and a world to run the notebooks on *)

(** The generator is a counter; a draw takes the first positions of a
    rotation of the range; training reports three epochs. *)
Definition toy_backend : Backend :=
  {| RandomState := nat;
     seeded := id;
     choice rs a size := (firstn size (rotate (S rs) (seq 0 a)), S rs);
     optimise rs m args :=
       (mkHistory [Fin 0.5; Fin 0.25; Fin 0.125] [Fin 0.5; Fin 0.375; Fin 0.4375], S rs) |}.

(** The four rows of red-wine.csv that the notebook displays. *)
Definition four_wines : table :=
  mkTable red_wine_header
    [[10.8; 0.470; 0.43; 2.10; 0.171; 27.0; 66.0; 0.99820; 3.17; 0.76; 10.8; 6];
     [ 8.1; 0.820; 0.00; 4.10; 0.095;  5.0; 14.0; 0.99854; 3.36; 0.53;  9.6; 5];
     [ 9.1; 0.290; 0.33; 2.05; 0.063; 13.0; 27.0; 0.99516; 3.26; 0.84; 11.7; 7];
     [10.2; 0.645; 0.36; 1.80; 0.053;  5.0; 14.0; 0.99820; 3.17; 0.42; 10.0; 6]]%Q.

Definition cellar : @World toy_backend :=
  @mkWorld toy_backend {[ "../data/red-wine.csv" := four_wines ]} 7 11 [] [] [].

(** What the data preparation of the overfitting notebook returns there. *)
Definition cellar_prepared : DataFrame * DataFrame * Series nat * Series nat :=
  Eval vm_compute in
    match (@overfitting_cell3 toy_backend cellar).1 with
    | Returned p => p
    | Raised _ => (mkDataFrame [] [], mkDataFrame [] [], [], [])
    end.

(** A data file with one column too many. *)
Definition crowded_cellar : @World toy_backend :=
  @mkWorld toy_backend
    {[ "../data/red-wine.csv" :=
         mkTable (red_wine_header ++ ["vintage"])
           [[10.8; 0.470; 0.43; 2.10; 0.171; 27.0; 66.0; 0.99820; 3.17; 0.76;
             10.8; 6; 2009];
            [ 8.1; 0.820; 0.00; 4.10; 0.095;  5.0; 14.0; 0.99854; 3.36; 0.53;
              9.6; 5; 2011]]%Q ]}
    7 11 [] [] [].

(** A world without the data file. *)
Definition empty_cellar : @World toy_backend :=
  @mkWorld toy_backend ∅ 7 11 [] [] [].

(** ** Further readings of a run *)


(** [avoids e m]: no run of [m] ends in the exception [e]. *)
Definition avoids `{Backend} {A} (e : exn) (m : nb A) : Prop :=
  ∀ w, (m w).1 ≠ Raised e.

(** [spares_numpy m]: [m] leaves numpy's global generator where it was. *)
Definition spares_numpy `{Backend} {A} (m : nb A) : Prop :=
  ∀ w, np_random (m w).2 = np_random w.

(** [stops fs m e cs]: on the files [fs], [m] ends in the exception [e]
    after exactly the calls [cs]. *)
Definition stops `{Backend} {A} (fs : gmap string table) (m : nb A)
    (e : exn) (cs : list call) : Prop :=
  ∀ w, files w = fs → (m w).1 = Raised e ∧ calls (m w).2 = calls w ++ cs.

(** The data file without its target column. *)
Definition unlabelled_cellar : @World toy_backend :=
  @mkWorld toy_backend
    {[ "../data/red-wine.csv" :=
         mkTable red_wine_features
           [[10.8; 0.470; 0.43; 2.10; 0.171; 27.0; 66.0; 0.99820; 3.17; 0.76; 10.8];
            [ 8.1; 0.820; 0.00; 4.10; 0.095;  5.0; 14.0; 0.99854; 3.36; 0.53;  9.6]]%Q ]}
    7 11 [] [] [].

(** What the data preparation of the dropout notebook returns in the
    cellar. *)
Definition cellar_raw : DataFrame * DataFrame * Series nat * Series nat :=
  Eval vm_compute in
    match (@dropout_cell4 toy_backend cellar).1 with
    | Returned p => p
    | Raised _ => (mkDataFrame [] [], mkDataFrame [] [], [], [])
    end.

(** * Properties *)

Section KernelFacts.
Context `{Backend}.

Lemma bind_returned {A B} (m : nb A) (k : A → nb B) w a w' :
  m w = (Returned a, w') → (m ≫= k) w = k a w'.
Proof. intros Hm. unfold mbind, nb_bind. by rewrite Hm. Qed.

Lemma bind_raised {A B} (m : nb A) (k : A → nb B) w e w' :
  m w = (Raised e, w') → (m ≫= k) w = (Raised e, w').
Proof. intros Hm. unfold mbind, nb_bind. by rewrite Hm. Qed.

Lemma obeys_mret {A} (a : A) : obeys (mret a) [].
Proof. intros w. cbn. by rewrite app_nil_r. Qed.

Lemma obeys_bind {A B} (m : nb A) (k : A → nb B) cs1 cs2 :
  obeys m cs1 → (∀ a, obeys (k a) cs2) → obeys (m ≫= k) (cs1 ++ cs2).
Proof.
  intros Hm Hk w. destruct (Hm w) as [Hf Hw].
  destruct (m w) as [[a|e] w'] eqn:Em; cbn in Hf, Hw.
  - rewrite (bind_returned _ _ _ _ _ Em).
    destruct Hw as [Hc Hr]. destruct (Hk a w') as [Hf' Hw'].
    split; [congruence|].
    destruct ((k a w').1) as [b|e].
    + destruct Hw' as [-> ->]. by rewrite Hc, Hr, app_assoc.
    + destruct Hw' as [-> (before & c & -> & Hpre & Hmay)]. rewrite Hr.
      split; [done|].
      exists (cs1 ++ before), c. rewrite Hc, <- !app_assoc. split; [done|].
      split; [|done]. by apply prefix_app.
  - rewrite (bind_raised _ _ _ _ _ Em). cbn. split; [done|].
    destruct Hw as [Hr (before & c & Hc & Hpre & Hmay)]. split; [done|].
    exists before, c. split; [done|]. split; [|done].
    by apply prefix_app_r.
Qed.

Lemma obeys_called {A} (c : call) (m : nb A) :
  quiet c m → obeys (called c;; m) [c].
Proof.
  intros Hq w. unfold mbind, nb_bind, called.
  set (w1 := mkWorld _ _ _ _ _ _). destruct (Hq w1) as (Hf & Hc & Hr).
  destruct (m w1) as [[a|e] w'] eqn:Em; cbn in *.
  - by rewrite Hf, Hc, Hr.
  - destruct Hr as [Hr Hmay]. rewrite Hf, Hr. do 2 (split; [done|]).
    exists [], c. by rewrite Hc.
Qed.

Lemma obeys_calls_only (c : call) : obeys (called c) [c].
Proof. by intros w. Qed.

Lemma obeys_shown (o : output) : obeys (shown o) [].
Proof. intros w. cbn. by rewrite app_nil_r. Qed.

Lemma quiet_mret {A} c (a : A) : quiet c (mret a).
Proof. by intros w. Qed.

Lemma quiet_shown c o : quiet c (shown o).
Proof. by intros w. Qed.

Lemma quiet_expect {A} c (o : option A) e :
  may_raise c e → quiet c (expect o e).
Proof. intros Hmay w. by destruct o. Qed.

Lemma quiet_raise {A} c e : may_raise c e → quiet c (raise (A:=A) e).
Proof. by intros Hmay w. Qed.

Lemma quiet_bind {A B} c (m : nb A) (k : A → nb B) :
  quiet c m → (∀ a, quiet c (k a)) → quiet c (m ≫= k).
Proof.
  intros Hm Hk w. destruct (Hm w) as (Hf & Hc & Hr).
  unfold mbind, nb_bind. destruct (m w) as [[a|e] w'] eqn:Em; cbn in *; [|done].
  destruct (Hk a w') as (Hf' & Hc' & Hr'). rewrite Hf', Hc', Hf, Hc.
  do 2 (split; [done|]). destruct ((k a w').1); [congruence|].
  by rewrite Hr in Hr'.
Qed.

Lemma quiet_on_disk c path : quiet c (on_disk path).
Proof. by intros w. Qed.

Lemma quiet_draw c random_state a size : quiet c (draw random_state a size).
Proof. intros w. by destruct random_state. Qed.

Lemma quiet_training c model args : quiet c (training model args).
Proof. by intros w. Qed.

(** Every library operation logs its call and then runs a quiet body. *)
Ltac quiet_body :=
  repeat first
    [ apply quiet_mret | apply quiet_shown | apply quiet_on_disk
    | apply quiet_draw | apply quiet_training
    | apply quiet_expect; done
    | apply quiet_raise; done
    | apply quiet_bind; [|intros ?]
    | case_match ].

Ltac library_call := apply obeys_called; quiet_body.

Lemma obeys_plt_style_use style : obeys (plt_style_use style) [call_style_use style].
Proof. apply obeys_calls_only. Qed.

Lemma obeys_plt_rc group : obeys (plt_rc group) [call_rc group].
Proof. apply obeys_calls_only. Qed.

Lemma obeys_pd_read_csv path : obeys (pd_read_csv path) [call_read_csv path].
Proof. library_call. Qed.

Lemma obeys_df_sample df frac random_state :
  obeys (df_sample df frac random_state) [call_sample frac random_state].
Proof. library_call. Qed.

Lemma obeys_df_drop df labels : obeys (df_drop df labels) [call_drop_index].
Proof. library_call. Qed.

Lemma obeys_df_drop_axis1 df label :
  obeys (df_drop_axis1 df label) [call_drop_columns label].
Proof. library_call. Qed.

Lemma obeys_df_getitem df label : obeys (df_getitem df label) [call_getitem label].
Proof. library_call. Qed.

Lemma obeys_df_head df n : obeys (df_head df n) [call_head n].
Proof. library_call. Qed.

Lemma obeys_display df : obeys (display df) [call_display].
Proof. library_call. Qed.

Lemma obeys_df_max df : obeys (df_max df) [call_max].
Proof. library_call. Qed.

Lemma obeys_df_min df : obeys (df_min df) [call_min].
Proof. library_call. Qed.

Lemma obeys_series_min s : obeys (series_min s) [call_min].
Proof. library_call. Qed.

Lemma obeys_df_sub df s : obeys (df_sub df s) [call_sub].
Proof. library_call. Qed.

Lemma obeys_series_sub s1 s2 : obeys (series_sub s1 s2) [call_sub].
Proof. library_call. Qed.

Lemma obeys_df_div df s : obeys (df_div df s) [call_div].
Proof. library_call. Qed.

Lemma obeys_pd_DataFrame h : obeys (pd_DataFrame h) [call_DataFrame].
Proof. library_call. Qed.

Lemma obeys_df_loc df labels : obeys (df_loc df labels) [call_loc labels].
Proof. library_call. Qed.

Lemma obeys_df_plot df : obeys (df_plot df) [call_plot].
Proof. library_call. Qed.

Lemma obeys_print template args : obeys (print template args) [call_print].
Proof. library_call. Qed.

Lemma obeys_keras_Sequential config :
  obeys (keras_Sequential config) [call_Sequential config].
Proof. library_call. Qed.

Lemma obeys_callbacks_EarlyStopping d p r :
  obeys (callbacks_EarlyStopping d p r) [call_EarlyStopping (mkEarlyStopping d p r)].
Proof. library_call. Qed.

Lemma obeys_model_compile model optimizer loss_name :
  obeys (model_compile model optimizer loss_name) [call_compile optimizer loss_name].
Proof. library_call. Qed.

Lemma obeys_model_summary model : obeys (model_summary model) [call_summary].
Proof. library_call. Qed.

Lemma obeys_model_fit model args n k :
  epochs args = n → length (callbacks args) = k →
  obeys (model_fit model args) [call_fit n k].
Proof. intros <- <-. library_call. Qed.


Lemma obeys_as {A} (m : nb A) cs cs' : obeys m cs → cs = cs' → obeys m cs'.
Proof. by intros Hm <-. Qed.

Create HintDb obeys discriminated.

#[local] Hint Resolve obeys_plt_style_use obeys_plt_rc obeys_pd_read_csv
  obeys_df_sample obeys_df_drop obeys_df_drop_axis1 obeys_df_getitem
  obeys_df_head obeys_display obeys_df_max obeys_df_min obeys_series_min
  obeys_df_sub obeys_series_sub obeys_df_div obeys_pd_DataFrame obeys_df_loc
  obeys_df_plot obeys_print obeys_keras_Sequential
  obeys_callbacks_EarlyStopping obeys_model_compile obeys_model_summary
  obeys_shown : obeys.

(** Walk down a program, one bind at a time. *)
Ltac obey :=
  lazymatch goal with
  | |- obeys (mret _) _ => apply obeys_mret
  | |- obeys (_ ≫= _) _ =>
      eapply obeys_bind; [obey | intros ?; repeat case_match; obey]
  | |- obeys (model_fit _ _) _ => eapply obeys_model_fit; cbn; reflexivity
  | |- _ => solve [eauto with obeys]
  end.

Ltac obeys_by_walking := eapply obeys_as; [obey | reflexivity].

Lemma obeys_split_step red_wine :
  obeys (split_step red_wine) [call_sample 0.7 (Some 0); call_drop_index].
Proof. unfold split_step. obeys_by_walking. Qed.

Lemma obeys_features_target df_train df_valid :
  obeys (features_target df_train df_valid)
    [call_drop_columns "quality"; call_drop_columns "quality";
     call_getitem "quality"; call_getitem "quality"].
Proof. unfold features_target. obeys_by_walking. Qed.

Lemma obeys_plot_history history :
  obeys (plot_history history)
    [call_DataFrame; call_loc ["loss"; "val_loss"]; call_plot].
Proof. unfold plot_history. obeys_by_walking. Qed.

Lemma obeys_scale_step df_train df_valid :
  obeys (scale_step df_train df_valid)
    [call_max; call_min; call_sub; call_sub; call_div;
     call_sub; call_sub; call_div].
Proof. unfold scale_step. obeys_by_walking. Qed.

#[local] Hint Resolve obeys_split_step obeys_features_target
  obeys_plot_history obeys_scale_step : obeys.

Lemma obeys_single_neuron : obeys single_neuron single_neuron_calls.
Proof. unfold single_neuron. obeys_by_walking. Qed.

Lemma obeys_deep_neural_networks :
  obeys deep_neural_networks deep_neural_networks_calls.
Proof. unfold deep_neural_networks. obeys_by_walking. Qed.

Lemma obeys_overfitting : obeys overfitting overfitting_calls.
Proof.
  unfold overfitting, overfitting_cell1, overfitting_cell2, overfitting_cell3,
    overfitting_cell4, overfitting_cell5.
  obeys_by_walking.
Qed.

Lemma obeys_dropout_batchnorm : obeys dropout_batchnorm dropout_batchnorm_calls.
Proof.
  unfold dropout_batchnorm, dropout_cell1, dropout_cell2, dropout_cell3,
    dropout_cell4, dropout_cell5, dropout_cell6.
  obeys_by_walking.
Qed.

End KernelFacts.

(** ** What every run does *)

Section Runs.
Context `{Backend}.

(** What [obeys] says of one run. *)
Lemma obeys_run {A} (m : nb A) cs w :
  obeys m cs →
  files (m w).2 = files w ∧
  ∃ made, calls (m w).2 = calls w ++ made ∧ made `prefix_of` cs ∧
          (∀ a, (m w).1 = Returned a → made = cs).
Proof.
  intros Hm. destruct (Hm w) as [Hf Hw]. split; [done|].
  destruct ((m w).1) as [a|e].
  - exists cs. destruct Hw as [-> _]. by repeat split.
  - destruct Hw as [_ (before & c & -> & Hpre & _)]. exists (before ++ [c]).
    by repeat split.
Qed.

Lemma obeys_notebooks :
  Forall2 obeys notebooks
    [single_neuron_calls; deep_neural_networks_calls;
     overfitting_calls; dropout_batchnorm_calls].
Proof.
  unfold notebooks.
  constructor; [apply obeys_single_neuron|].
  constructor; [apply obeys_deep_neural_networks|].
  constructor; [apply obeys_overfitting|].
  constructor; [apply obeys_dropout_batchnorm|].
  constructor.
Qed.

Lemma configs_prefix made cs :
  made `prefix_of` cs → configs made ⊆ configs cs.
Proof.
  intros [rest ->] config. unfold configs. rewrite omap_app, elem_of_app. auto.
Qed.

Lemma paths_read_prefix made cs :
  made `prefix_of` cs → paths_read made ⊆ paths_read cs.
Proof.
  intros [rest ->] config. unfold paths_read. rewrite omap_app, elem_of_app. auto.
Qed.


Lemma reads_of_complete_runs :
  Forall (λ cs, paths_read cs ⊆ ["../data/red-wine.csv"])
    [single_neuron_calls; deep_neural_networks_calls;
     overfitting_calls; dropout_batchnorm_calls].
Proof.
  repeat apply Forall_cons_2; [..|apply Forall_nil_2]; cbn;
    first [apply list_subseteq_nil | reflexivity].
Qed.

(** C10: no notebook persists anything.  Every run of every notebook
    leaves the files as they were, and the only paths it opens, through
    [pd.read_csv], are that of the input CSV. *)
Theorem files_are_only_read :
  Forall (λ nbk : nb unit, ∀ w,
    files (nbk w).2 = files w ∧
    ∃ made, calls (nbk w).2 = calls w ++ made ∧
            paths_read made ⊆ ["../data/red-wine.csv"]) notebooks.
Proof.
  eapply Forall2_Forall_l; [apply obeys_notebooks|].
  eapply Forall_impl; [apply reads_of_complete_runs|].
  intros cs Hcs nbk Hobeys w.
  destruct (obeys_run nbk _ w Hobeys) as (Hf & made & Hc & Hpre & _).
  split; [done|]. exists made. split; [done|].
  etrans; [by apply paths_read_prefix|done].
Qed.

Lemma descriptor_true l :
  descriptor l = true →
  carries_units l ∨ (∃ rate, l = Dropout rate) ∨ l = BatchNormalization.
Proof.
  destruct l; cbn; intros Hd;
    [left; by eexists | right; left; by eexists | by right; right | done].
Qed.

Lemma configs_of_complete_runs :
  Forall (λ cs,
      forallb (λ config, forallb descriptor config && shape_on_first_only config)
        (configs cs) = true)
    [single_neuron_calls; deep_neural_networks_calls;
     overfitting_calls; dropout_batchnorm_calls].
Proof. repeat apply Forall_cons_2; [..|apply Forall_nil_2]; reflexivity. Qed.

(** C1, amended: every configuration given to [keras.Sequential], in any
    run of any notebook, is a list whose entries are dense descriptors
    (a unit count, an optional activation), dropout descriptors (a rate
    only) or batch normalisation descriptors (no argument); an input
    shape is declared on a first entry only. *)
Theorem sequential_configurations :
  Forall (λ nbk : nb unit, ∀ w,
    ∃ made, calls (nbk w).2 = calls w ++ made ∧
      Forall (λ config,
          Forall (λ l, carries_units l ∨ (∃ rate, l = Dropout rate)
                       ∨ l = BatchNormalization) config ∧
          shape_on_first_only config = true)
        (configs made)) notebooks.
Proof.
  eapply Forall2_Forall_l; [apply obeys_notebooks|].
  eapply Forall_impl; [apply configs_of_complete_runs|].
  intros cs Hcs nbk Hobeys w.
  destruct (obeys_run nbk _ w Hobeys) as (_ & made & Hc & Hpre & _).
  exists made. split; [done|].
  apply Forall_forall. intros config Hin%(configs_prefix _ _ Hpre).
  apply Is_true_true_2 in Hcs. rewrite forallb_True, Forall_forall in Hcs.
  specialize (Hcs _ Hin). apply andb_True in Hcs as [Hall Hshape].
  split; [|by apply Is_true_true].
  rewrite forallb_True in Hall. eapply Forall_impl; [exact Hall|].
  intros l Hl. by apply descriptor_true, Is_true_true.
Qed.

End Runs.

(** ** The split *)

Lemma py_round_le (x : Q) (n : nat) :
  (0 <= x)%Q → (x <= inject_Z (Z.of_nat n))%Q → py_round x ≤ n.
Proof.
  intros Hx Hn. unfold py_round.
  pose proof (Qfloor_le x) as Hfloor.
  assert (Qfloor x ≤ Z.of_nat n)%Z as Hfn.
  { rewrite Zle_Qle. by eapply Qle_trans. }
  assert (0 ≤ Qfloor x)%Z as Hf0.
  { change 0%Z with (Qfloor 0). by apply Qfloor_resp_le. }
  assert ((1 # 2 <= x - inject_Z (Qfloor x))%Q → (Qfloor x + 1 ≤ Z.of_nat n)%Z) as Hup.
  { intros Hr. assert (inject_Z (Qfloor x) < inject_Z (Z.of_nat n))%Q as Hlt by lra.
    rewrite <- Zlt_Qlt in Hlt. lia. }
  destruct (Qcompare_spec (x - inject_Z (Qfloor x)) (1 # 2)) as [Heq|Hlt|Hgt].
  - destruct (Z.even (Qfloor x)); [lia|]. 
    assert (Qfloor x + 1 ≤ Z.of_nat n)%Z by (apply Hup; rewrite Heq; apply Qle_refl). lia.
  - lia.
  - assert (Qfloor x + 1 ≤ Z.of_nat n)%Z by (apply Hup; by apply Qlt_le_weak). lia.
Qed.

Lemma sample_size_le (a : nat) : py_round (0.7 * inject_Z (Z.of_nat a)) ≤ a.
Proof.
  assert (0 <= inject_Z (Z.of_nat a))%Q as Ha.
  { change 0%Q with (inject_Z 0). rewrite <- Zle_Qle. lia. }
  apply py_round_le; lra.
Qed.

Lemma taken_rows_NoDup {A} (l : list A) (locs : list nat) (rs : list A) :
  NoDup l → NoDup locs → Forall2 (λ p r, l !! p = Some r) locs rs → NoDup rs.
Proof.
  intros Hl Hlocs Hall. induction Hall as [|p r ps rs Hp Hall IH]; [constructor|].
  apply NoDup_cons in Hlocs as [Hp_new Hps]. apply NoDup_cons. split; [|auto].
  intros Hin. apply list_elem_of_lookup in Hin as [i Hi].
  destruct (Forall2_lookup_r _ _ _ _ _ Hall Hi) as (p' & Hp' & Hlook).
  assert (p = p') as -> by exact (NoDup_lookup l p p' r Hl Hp Hlook).
  apply Hp_new. by eapply list_elem_of_lookup_2.
Qed.

Lemma taken_rows_elem_of {A} (l : list A) (locs : list nat) (rs : list A) r :
  Forall2 (λ p r, l !! p = Some r) locs rs → r ∈ rs → r ∈ l.
Proof.
  intros Hall Hin. apply list_elem_of_lookup in Hin as [i Hi].
  destruct (Forall2_lookup_r _ _ _ _ _ Hall Hi) as (p & _ & Hlook).
  by eapply list_elem_of_lookup_2.
Qed.

(** ** Sampling rows and dropping them *)

Lemma take_Some df locs df_train :
  Frame.take df locs = Some df_train ↔
  columns df_train = columns df ∧
  Forall2 (λ p r, rows df !! p = Some r) locs (rows df_train).
Proof.
  unfold Frame.take. split.
  - intros Htake. apply bind_Some in Htake as (rs & Hrs & [= <-]).
    by apply mapM_Some in Hrs.
  - destruct df_train as [cols rs]. cbn. intros [-> Hrs].
    apply mapM_Some in Hrs. by rewrite Hrs.
Qed.

Lemma take_is_Some df locs :
  Forall (λ p, p < length (rows df)) locs → is_Some (Frame.take df locs).
Proof.
  intros Hlocs. unfold Frame.take.
  destruct (mapM (λ p, rows df !! p) locs) as [rs|] eqn:Hrs; [by eexists|].
  exfalso. assert (is_Some (mapM (λ p, rows df !! p) locs)) as [? ?]; [|congruence].
  apply mapM_is_Some. eapply Forall_impl; [exact Hlocs|].
  intros p Hp. by apply lookup_lt_is_Some.
Qed.

Lemma index_rows_NoDup df : NoDup (Frame.index df) → NoDup (rows df).
Proof. apply NoDup_fmap_1. Qed.

Lemma row_by_label df r r' :
  NoDup (Frame.index df) → r ∈ rows df → r' ∈ rows df → r.1 = r'.1 → r = r'.
Proof.
  intros Hidx [p Hp]%list_elem_of_lookup [p' Hp']%list_elem_of_lookup Heq.
  assert (p = p') as ->; [|congruence].
  apply (NoDup_lookup (Frame.index df) p p' r.1 Hidx); unfold Frame.index;
    rewrite list_lookup_fmap; [by rewrite Hp | by rewrite Hp', Heq].
Qed.

(** The rows taken and the rows left make up the frame. *)
Lemma take_then_drop df locs df_train :
  NoDup (Frame.index df) → NoDup locs →
  Frame.take df locs = Some df_train →
  ∃ df_valid,
    Frame.drop df (Frame.index df_train) = Some df_valid ∧
    columns df_valid = columns df ∧
    rows df_valid = filter (λ r, r.1 ∉ Frame.index df_train) (rows df) ∧
    rows df_train ++ rows df_valid ≡ₚ rows df.
Proof.
  intros Hidx Hlocs [Hcols Hrows]%take_Some.
  assert (Frame.index df_train ⊆ Frame.index df) as Hsub.
  { intros i (r & -> & Hr)%list_elem_of_fmap. apply list_elem_of_fmap.
    exists r. split; [done|]. by eapply taken_rows_elem_of. }
  unfold Frame.drop. rewrite decide_True by done.
  eexists. split; [done|]. cbn. split; [done|]. split; [done|].
  rewrite <- (filter_app_complement (λ r, r.1 ∈ Frame.index df_train) (rows df)) at 2.
  apply Permutation_app_tail, NoDup_Permutation.
  - eapply taken_rows_NoDup; [by apply index_rows_NoDup|done..].
  - by apply NoDup_filter, index_rows_NoDup.
  - intros r. rewrite list_elem_of_filter. split.
    + intros Hr. split; [|by eapply taken_rows_elem_of].
      apply list_elem_of_fmap. by exists r.
    + intros [(r' & Heq & Hr')%list_elem_of_fmap Hr].
      assert (r = r') as ->; [|done].
      apply (row_by_label df); [done..| |done]. by eapply taken_rows_elem_of.
Qed.

Section Split.
Context `{Backend}.

Lemma df_sample_seeded df frac seed w d :
  Qle_bool frac 1 = true →
  Frame.take df
    (choice (seeded seed) (length (rows df))
       (py_round (frac * inject_Z (Z.of_nat (length (rows df)))))).1 = Some d →
  df_sample df frac (Some seed) w =
    (Returned d, (called (call_sample frac (Some seed)) w).2).
Proof.
  intros Hfrac Htake. unfold df_sample. rewrite Hfrac.
  unfold mbind, nb_bind. cbn. by rewrite Htake.
Qed.

Lemma df_drop_returns df labels w d :
  Frame.drop df labels = Some d →
  df_drop df labels w = (Returned d, (called call_drop_index w).2).
Proof. intros Hdrop. unfold df_drop, mbind, nb_bind. cbn. by rewrite Hdrop. Qed.

(** C3: the split is deterministic.  Two runs of the split step on the
    same frame return the same training and validation partitions (or
    raise the same exception), whatever the worlds they start from: the
    seed fixes the draw, numpy's global generator plays no part. *)
Theorem split_is_deterministic (red_wine : DataFrame) (w1 w2 : World) :
  (split_step red_wine w1).1 = (split_step red_wine w2).1.
Proof.
  unfold split_step, df_sample, df_drop, mbind, nb_bind. cbn.
  change (Qle_bool 0.7 1) with true.
  destruct (Frame.take red_wine _) as [df_train|]; cbn; [|done].
  by destruct (Frame.drop red_wine (Frame.index df_train)).
Qed.


(** The frames [pd.read_csv] builds carry a range index. *)
Lemma frame_of_index t : Frame.index (Frame.frame_of t) = seq 0 (length (records t)).
Proof.
  unfold Frame.index, Frame.frame_of. cbn.
  rewrite fmap_imap, <- (list_fmap_id (seq 0 _)), <- imap_seq_0.
  by apply imap_ext.
Qed.

Lemma pd_read_csv_index path w red_wine :
  (pd_read_csv path w).1 = Returned red_wine → NoDup (Frame.index red_wine).
Proof.
  unfold pd_read_csv, mbind, nb_bind. cbn.
  destruct (files w !! path) as [t|]; cbn; [|done].
  intros [= <-]. rewrite frame_of_index. apply NoDup_seq.
Qed.

End Split.

(** ** Reductions over finite values *)


Lemma Qmin_cases (x y : Q) : Qmin x y = x ∨ Qmin x y = y.
Proof. unfold Qmin, GenericMinMax.gmin. destruct (x ?= y)%Q; auto. Qed.


Lemma reduce_fmin_finite (l : list float64) :
  Forall (λ x, is_finite x = true) l → l ≠ [] →
  ∃ lo, Frame.reduce fmin l = Fin lo ∧ Fin lo ∈ l ∧
        ∀ x, Fin x ∈ l → (lo <= x)%Q.
Proof.
  induction 1 as [|a l Ha Hl IH]; [done|]. intros _.
  destruct a as [a| | |]; try done.
  change (Frame.reduce fmin (Fin a :: l)) with (fmin (Fin a) (Frame.reduce fmin l)).
  destruct l as [|b l].
  { exists a. cbn. split; [done|]. split; [by left|].
    intros x [= ->]%list_elem_of_singleton. apply Qle_refl. }
  destruct IH as (lo & -> & Hin & Hmin); [done|]. cbn [fmin].
  exists (Qmin a lo). split; [done|]. split.
  - destruct (Qmin_cases a lo) as [-> | ->]; [by left|by right].
  - intros x [[= ->]|Hx]%elem_of_cons; [apply Q.le_min_l|].
    eapply Qle_trans; [apply Q.le_min_r|by apply Hmin].
Qed.

(** ** Cells of frames *)













(** ** Min-max scaling *)

Section Scaling.
Context `{Backend}.

(** The scaling step never raises; its result is the two quotients. *)
Lemma scale_step_returns df_train df_valid w :
  (scale_step df_train df_valid w).1 =
  Returned
    (Frame.div (Frame.sub df_train (Frame.min df_train))
       (Frame.series_sub (Frame.max df_train) (Frame.min df_train)),
     Frame.div (Frame.sub df_valid (Frame.min df_train))
       (Frame.series_sub (Frame.max df_train) (Frame.min df_train))).
Proof. reflexivity. Qed.



End Scaling.

(** ** Shapes *)

Lemma shaped_frame_of t n :
  Forall (λ r, length r = n) (records t) →
  shaped (header t) n (Frame.frame_of t).
Proof.
  intros Hrec. split; [done|]. cbn. apply Forall_forall.
  intros r [i Hi]%list_elem_of_lookup. rewrite list_lookup_imap in Hi.
  destruct (records t !! i) as [rec|] eqn:Hrec_i; [|done].
  injection Hi as <-. cbn. rewrite length_fmap.
  rewrite Forall_forall in Hrec. apply Hrec. by eapply list_elem_of_lookup_2.
Qed.

Lemma shaped_take cols n df locs d :
  shaped cols n df → Frame.take df locs = Some d → shaped cols n d.
Proof.
  intros [Hcols Hrows] [Hcols' Hall]%take_Some. split; [congruence|].
  rewrite Forall_forall in Hrows. apply Forall_forall. intros r Hr.
  apply Hrows. by eapply taken_rows_elem_of.
Qed.

Lemma shaped_drop cols n df labels d :
  shaped cols n df → Frame.drop df labels = Some d → shaped cols n d.
Proof.
  intros [Hcols Hrows]. unfold Frame.drop. case_decide; [|done].
  intros [= <-]. split; [done|]. cbn. rewrite Forall_forall in Hrows.
  apply Forall_forall. intros r [_ Hr]%list_elem_of_filter. auto.
Qed.

Lemma shaped_broadcast op cols n df (s : Series string) :
  shaped cols n df → length s = n → shaped cols n (Frame.broadcast op df s).
Proof.
  intros [Hcols Hrows] Hs. split; [done|]. cbn. apply Forall_fmap.
  eapply Forall_impl; [exact Hrows|]. intros [label cells] Hlen. cbn in *.
  rewrite length_zip_with. lia.
Qed.

Lemma shaped_scaled cols df_train df :
  shaped cols (length cols) df_train → shaped cols (length cols) df →
  shaped cols (length cols)
    (Frame.div (Frame.sub df (Frame.min df_train))
       (Frame.series_sub (Frame.max df_train) (Frame.min df_train))).
Proof.
  intros [Hcols _] Hdf.
  assert (length (Frame.min df_train) = length cols) as Hmin.
  { unfold Frame.min. by rewrite length_imap, Hcols. }
  assert (length (Frame.max df_train) = length cols) as Hmax.
  { unfold Frame.max. by rewrite length_imap, Hcols. }
  apply shaped_broadcast; [by apply shaped_broadcast|].
  unfold Frame.series_sub. rewrite length_zip_with. lia.
Qed.

(** Dropping the target leaves the eleven features. *)
Lemma shaped_drop_quality df X :
  shaped red_wine_header 12 df →
  Frame.drop_column df "quality" = Some X →
  shaped red_wine_features 11 X.
Proof.
  intros [Hcols Hrows]. unfold Frame.drop_column. rewrite Hcols.
  case_decide; [|done]. intros [= <-]. split; [done|]. cbn.
  apply Forall_fmap. eapply Forall_impl; [exact Hrows|].
  intros [label cells] Hlen. cbn in *.
  do 13 (destruct cells as [|? cells]; try done).
Qed.

Section Shapes.
Context `{Backend}.

Lemma ensures_mret {A} (a : A) (P : A → Prop) : P a → ensures (mret a) P.
Proof. intros Ha w a' [= <-]. done. Qed.

Lemma ensures_raise {A} e (P : A → Prop) : ensures (raise e) P.
Proof. by intros w a. Qed.

Lemma ensures_expect {A} (o : option A) e (P : A → Prop) :
  (∀ a, o = Some a → P a) → ensures (expect o e) P.
Proof. intros Ho w a. destruct o; [|done]. intros [= <-]. auto. Qed.

Lemma ensures_bind {A B} (m : nb A) (k : A → nb B) (P : A → Prop) (Q : B → Prop) :
  ensures m P → (∀ a, P a → ensures (k a) Q) → ensures (m ≫= k) Q.
Proof.
  intros Hm Hk w b. unfold mbind, nb_bind.
  destruct (m w) as [[a|e] w'] eqn:Em; [|done].
  apply Hk. apply (Hm w). by rewrite Em.
Qed.

Lemma ensures_then {A B} (m : nb A) (k : nb B) (Q : B → Prop) :
  ensures k Q → ensures (m;; k) Q.
Proof. intros Hk. by apply (ensures_bind _ _ (λ _, True)). Qed.

Lemma ensures_df_sample cols n df frac random_state :
  shaped cols n df → ensures (df_sample df frac random_state) (shaped cols n).
Proof.
  intros Hdf. unfold df_sample. apply ensures_then.
  case_match; [|apply ensures_raise].
  apply (ensures_bind _ _ (λ _, True)); [done|]. intros locs _.
  apply ensures_expect. intros d. by apply shaped_take.
Qed.

Lemma ensures_df_drop cols n df labels :
  shaped cols n df → ensures (df_drop df labels) (shaped cols n).
Proof.
  intros Hdf. apply ensures_then, ensures_expect. intros d. by apply shaped_drop.
Qed.

Lemma ensures_split_step cols n red_wine :
  shaped cols n red_wine →
  ensures (split_step red_wine) (λ p, shaped cols n p.1 ∧ shaped cols n p.2).
Proof.
  intros Hdf. unfold split_step.
  eapply ensures_bind; [by apply ensures_df_sample|]. intros df_train Htrain.
  eapply ensures_bind; [by apply ensures_df_drop|]. intros df_valid Hvalid.
  by apply ensures_mret.
Qed.

Lemma ensures_scale_step cols df_train df_valid :
  shaped cols (length cols) df_train → shaped cols (length cols) df_valid →
  ensures (scale_step df_train df_valid)
    (λ p, shaped cols (length cols) p.1 ∧ shaped cols (length cols) p.2).
Proof.
  intros Htrain Hvalid w p. rewrite scale_step_returns. intros [= <-].
  split; by apply shaped_scaled.
Qed.

Lemma ensures_features_target df_train df_valid :
  shaped red_wine_header 12 df_train → shaped red_wine_header 12 df_valid →
  ensures (features_target df_train df_valid)
    (λ p, shaped red_wine_features 11 p.1.1.1 ∧ shaped red_wine_features 11 p.1.1.2).
Proof.
  intros Htrain Hvalid. unfold features_target, df_drop_axis1.
  eapply ensures_bind.
  { apply ensures_then, ensures_expect. intros X. by apply shaped_drop_quality. }
  intros X_train HX_train. eapply ensures_bind.
  { apply ensures_then, ensures_expect. intros X. by apply shaped_drop_quality. }
  intros X_valid HX_valid.
  apply (ensures_bind _ _ (λ _, True)); [done|]. intros y_train _.
  apply (ensures_bind _ _ (λ _, True)); [done|]. intros y_valid _.
  by apply ensures_mret.
Qed.

Lemma pd_read_csv_returns path w t :
  files w !! path = Some t →
  pd_read_csv path w =
    (Returned (Frame.frame_of t), (called (call_read_csv path) w).2).
Proof.
  intros Hfile. unfold pd_read_csv, mbind, nb_bind, on_disk. cbn. by rewrite Hfile.
Qed.

(** The two cells that prepare the data, and the model each notebook fits. *)
Lemma ensures_overfitting_prep red_wine :
  shaped red_wine_header 12 red_wine →
  ensures
    ('(df_train, df_valid) ← split_step red_wine;
     top ← df_head df_train 4;
     display top;;
     '(df_train, df_valid) ← scale_step df_train df_valid;
     features_target df_train df_valid)
    (λ p, shaped red_wine_features 11 p.1.1.1 ∧ shaped red_wine_features 11 p.1.1.2).
Proof.
  intros Hdf.
  eapply ensures_bind; [by apply ensures_split_step|].
  intros [df_train df_valid] [Htrain Hvalid].
  apply (ensures_bind _ _ (λ _, True)); [done|]. intros top _.
  apply ensures_then.
  eapply ensures_bind; [by apply (ensures_scale_step red_wine_header)|].
  intros [scaled_train scaled_valid] [Hstrain Hsvalid].
  by apply ensures_features_target.
Qed.

Lemma ensures_dropout_prep red_wine :
  shaped red_wine_header 12 red_wine →
  ensures
    ('(df_train, df_valid) ← split_step red_wine;
     features_target df_train df_valid)
    (λ p, shaped red_wine_features 11 p.1.1.1 ∧ shaped red_wine_features 11 p.1.1.2).
Proof.
  intros Hdf.
  eapply ensures_bind; [by apply ensures_split_step|].
  intros [df_train df_valid] [Htrain Hvalid].
  by apply ensures_features_target.
Qed.

(** C8: the data fits the model.  With the twelve columns of
    red-wine.csv on disk, the data preparation of either training
    notebook returns feature frames of exactly eleven columns, and the
    model that notebook fits declares [input_shape=[11]] on its first
    layer, so that it accepts both frames. *)
Theorem features_match_declared_inputs
    (prep : nb (DataFrame * DataFrame * Series nat * Series nat))
    (config : list layer) (w : World) (t : table)
    (X_train X_valid : DataFrame) (y_train y_valid : Series nat) :
  (prep = overfitting_cell3 ∧ config = overfitting_model) ∨
  (prep = dropout_cell4 ∧ config = dropout_model) →
  files w !! "../data/red-wine.csv" = Some t →
  header t = red_wine_header →
  Forall (λ r, length r = 12) (records t) →
  (prep w).1 = Returned (X_train, X_valid, y_train, y_valid) →
  length (columns (Frame.frame_of t)) = 12 ∧
  shaped red_wine_features 11 X_train ∧
  shaped red_wine_features 11 X_valid ∧
  length (columns X_train) = 11 ∧
  length (columns X_valid) = 11 ∧
  declared_inputs (mkModel config None) = Some [11] ∧
  ∀ settings, accepts (mkModel config settings) X_train = true ∧
              accepts (mkModel config settings) X_valid = true.
Proof.
  intros Hwhich Hfile Hheader Hrecords Hret.
  assert (shaped red_wine_header 12 (Frame.frame_of t)) as Hshape.
  { rewrite <- Hheader. by apply shaped_frame_of. }
  assert (shaped red_wine_features 11 X_train ∧ shaped red_wine_features 11 X_valid)
    as [[HcolsT HrowsT] [HcolsV HrowsV]].
  { destruct Hwhich as [[-> _]|[-> _]].
    - unfold overfitting_cell3 in Hret.
      erewrite bind_returned in Hret by (by apply pd_read_csv_returns).
      by apply (ensures_overfitting_prep _ Hshape _ _ Hret).
    - unfold dropout_cell4 in Hret.
      do 3 (erewrite bind_returned in Hret by reflexivity).
      erewrite bind_returned in Hret by (by apply pd_read_csv_returns).
      by apply (ensures_dropout_prep _ Hshape _ _ Hret). }
  split; [by rewrite (proj1 Hshape)|].
  do 2 (split; [done|]). rewrite HcolsT, HcolsV. do 2 (split; [done|]).
  destruct Hwhich as [[_ ->]|[_ ->]]; (split; [reflexivity|]);
    intros settings; unfold accepts, declared_inputs; cbn;
    by rewrite HcolsT, HcolsV.
Qed.

End Shapes.

(** ** Complete runs *)

Section Complete.
Context `{Backend}.

Lemma succeeds_mret {A} fs (a : A) (P : A → Prop) : P a → succeeds fs (mret a) P.
Proof. intros Ha w Hw. by exists a, w. Qed.

Lemma succeeds_bind {A B} fs (m : nb A) (k : A → nb B) (P : A → Prop) (Q : B → Prop) :
  succeeds fs m P → (∀ a, P a → succeeds fs (k a) Q) → succeeds fs (m ≫= k) Q.
Proof.
  intros Hm Hk w Hw. destruct (Hm w Hw) as (a & w' & Hrun & Hw' & Ha).
  rewrite (bind_returned _ _ _ _ _ Hrun). by apply Hk.
Qed.

Lemma succeeds_called fs c : succeeds fs (called c) (λ _, True).
Proof. intros w Hw. by eexists _, _. Qed.

Lemma succeeds_shown fs o : succeeds fs (shown o) (λ _, True).
Proof. intros w Hw. by eexists _, _. Qed.

Lemma succeeds_then {A} fs c (m : nb A) (P : A → Prop) :
  succeeds fs m P → succeeds fs (called c;; m) P.
Proof. intros Hm. eapply succeeds_bind; [apply succeeds_called|done]. Qed.

Lemma succeeds_expect {A} fs (o : option A) e a (P : A → Prop) :
  o = Some a → P a → succeeds fs (expect o e) P.
Proof. intros -> Ha. by apply succeeds_mret. Qed.

Lemma succeeds_weaken {A} fs (m : nb A) (P Q : A → Prop) :
  succeeds fs m P → (∀ a, P a → Q a) → succeeds fs m Q.
Proof.
  intros Hm Hpq w Hw. destruct (Hm w Hw) as (a & w' & Hrun & Hw' & Ha).
  exists a, w'. auto.
Qed.

(** A program that returns, returns what it is known to ensure. *)
Lemma succeeds_ensures {A} fs (m : nb A) (P Q : A → Prop) :
  succeeds fs m P → ensures m Q → succeeds fs m (λ a, P a ∧ Q a).
Proof.
  intros Hm Hq w Hw. destruct (Hm w Hw) as (a & w' & Hrun & Hw' & Ha).
  exists a, w'. repeat split; [done..|]. apply (Hq w). by rewrite Hrun.
Qed.

Lemma succeeds_pd_read_csv fs path t :
  fs !! path = Some t →
  succeeds fs (pd_read_csv path) (λ df, df = Frame.frame_of t).
Proof.
  intros Hfile w Hw. eexists _, _. split; [apply pd_read_csv_returns; by rewrite Hw|].
  by split.
Qed.

Lemma succeeds_split_step fs cols n red_wine :
  choice_spec → shaped cols n red_wine →
  succeeds fs (split_step red_wine) (λ p, shaped cols n p.1 ∧ shaped cols n p.2).
Proof.
  intros Hchoice Hshape.
  cut (succeeds fs (split_step red_wine) (λ _, True)).
  { intros Hrun. eapply succeeds_weaken.
    - eapply succeeds_ensures; [exact Hrun|by apply ensures_split_step].
    - by intros p [_ Hp]. }
  intros w Hw.
  set (a := length (rows red_wine)).
  set (size := py_round (0.7 * inject_Z (Z.of_nat a))).
  destruct (Hchoice (seeded 0) a size) as (_ & _ & Hbound); [apply sample_size_le|].
  destruct (take_is_Some red_wine _ Hbound) as [df_train Htake].
  assert (is_Some (Frame.drop red_wine (Frame.index df_train))) as [df_valid Hdrop].
  { unfold Frame.drop. rewrite decide_True; [by eexists|].
    apply take_Some in Htake as [_ Hrows].
    intros i (r & -> & Hr)%list_elem_of_fmap. apply list_elem_of_fmap.
    exists r. split; [done|]. by eapply taken_rows_elem_of. }
  unfold split_step. eexists _, _. split.
  { erewrite bind_returned by (by apply df_sample_seeded).
    erewrite bind_returned by (by apply df_drop_returns). done. }
  by split.
Qed.

Lemma succeeds_scale_step fs cols df_train df_valid :
  shaped cols (length cols) df_train → shaped cols (length cols) df_valid →
  succeeds fs (scale_step df_train df_valid)
    (λ p, shaped cols (length cols) p.1 ∧ shaped cols (length cols) p.2).
Proof.
  intros Htrain Hvalid w Hw.
  eexists _, (scale_step df_train df_valid w).2. split.
  { rewrite <- (scale_step_returns df_train df_valid w). apply surjective_pairing. }
  split; [by rewrite (proj1 (obeys_scale_step df_train df_valid w))|].
  split; by apply shaped_scaled.
Qed.

Lemma drop_quality_is_Some df :
  columns df = red_wine_header → is_Some (Frame.drop_column df "quality").
Proof.
  intros Hcols. unfold Frame.drop_column. rewrite Hcols, decide_True; [by eexists|].
  unfold red_wine_header. do 11 right. left.
Qed.

Lemma getitem_quality_is_Some df :
  columns df = red_wine_header → is_Some (Frame.getitem df "quality").
Proof.
  intros Hcols. unfold Frame.getitem, Frame.column_position. rewrite Hcols.
  by eexists.
Qed.

Lemma succeeds_features_target fs df_train df_valid :
  shaped red_wine_header 12 df_train → shaped red_wine_header 12 df_valid →
  succeeds fs (features_target df_train df_valid)
    (λ p, shaped red_wine_features 11 p.1.1.1 ∧ shaped red_wine_features 11 p.1.1.2).
Proof.
  intros Htrain Hvalid.
  cut (succeeds fs (features_target df_train df_valid) (λ _, True)).
  { intros Hrun. eapply succeeds_weaken.
    - eapply succeeds_ensures; [exact Hrun|by apply ensures_features_target].
    - by intros p [_ Hp]. }
  destruct (drop_quality_is_Some df_train (proj1 Htrain)) as [X_train HX_train].
  destruct (drop_quality_is_Some df_valid (proj1 Hvalid)) as [X_valid HX_valid].
  destruct (getitem_quality_is_Some df_train (proj1 Htrain)) as [y_train Hy_train].
  destruct (getitem_quality_is_Some df_valid (proj1 Hvalid)) as [y_valid Hy_valid].
  unfold features_target, df_drop_axis1, df_getitem.
  do 4 (eapply (succeeds_bind _ _ _ (λ _, True));
        [by eapply succeeds_then, succeeds_expect|intros ? _]).
  by apply succeeds_mret.
Qed.





End Complete.

(** The cellar is such a world. *)
Example training_notebooks_return_in_the_cellar :
  (@overfitting toy_backend cellar).1 = Returned tt ∧
  (@dropout_batchnorm toy_backend cellar).1 = Returned tt.
Proof. vm_compute. done. Qed.

(** ** Failures *)

Section Failures.
Context `{Backend}.

Lemma pd_read_csv_raises path w :
  files w !! path = None →
  pd_read_csv path w =
    (Raised (FileNotFoundError path),
     (raise (A:=DataFrame) (FileNotFoundError path)
        (called (call_read_csv path) w).2).2).
Proof.
  intros Hfile. unfold pd_read_csv, mbind, nb_bind, on_disk. cbn. by rewrite Hfile.
Qed.

(** Without the data file, both training notebooks end in the
    exception [pd.read_csv] raises. *)
Lemma missing_file_propagates w :
  files w !! "../data/red-wine.csv" = None →
  (overfitting w).1 = Raised (FileNotFoundError "../data/red-wine.csv") ∧
  (dropout_batchnorm w).1 = Raised (FileNotFoundError "../data/red-wine.csv").
Proof.
  intros Hfile. split.
  - unfold overfitting.
    do 2 (erewrite bind_returned by reflexivity).
    erewrite bind_raised; [done|]. unfold overfitting_cell3.
    erewrite bind_raised; [done|]. by apply pd_read_csv_raises.
  - unfold dropout_batchnorm.
    do 3 (erewrite bind_returned by reflexivity).
    erewrite bind_raised; [done|]. unfold dropout_cell4.
    do 3 (erewrite bind_returned by reflexivity).
    erewrite bind_raised; [done|]. by apply pd_read_csv_raises.
Qed.

(** What the second model cell of the overfitting notebook hands to [fit]. *)
Lemma overfitting_cell4_returns :
  ensures overfitting_cell4
    (λ p, p.1 = mkEarlyStopping 0.001 20 true ∧
          p.2 = mkModel overfitting_model (Some ("adam", "mae"))).
Proof. intros w p. unfold overfitting_cell4. cbn. by intros [= <-]. Qed.

End Failures.

(** The cellar without its data file. *)
Example missing_file_in_the_empty_cellar :
  (@overfitting toy_backend empty_cellar).1 =
    Raised (FileNotFoundError "../data/red-wine.csv") ∧
  raised (@overfitting toy_backend empty_cellar).2 =
    [FileNotFoundError "../data/red-wine.csv"].
Proof. vm_compute. done. Qed.

(** A data file with thirteen columns: [fit] raises, and so does the
    notebook. *)
Example shape_mismatch_propagates :
  (@overfitting toy_backend crowded_cellar).1 = Raised ValueError ∧
  last (calls (@overfitting toy_backend crowded_cellar).2) = Some (call_fit 500 1).
Proof. vm_compute. done. Qed.

(** Without a seed the sample follows numpy's global generator. *)
Example unseeded_sample_follows_the_generator :
  (@df_sample toy_backend (Frame.frame_of four_wines) 0.7 None cellar).1 ≠
  (@df_sample toy_backend (Frame.frame_of four_wines) 0.7 None
     (@mkWorld toy_backend ∅ 8 11 [] [] [])).1.
Proof. vm_compute. discriminate. Qed.

(** ** The example backend and world *)

Lemma rotate_NoDup {A} (l : list A) n : NoDup l → NoDup (rotate n l).
Proof.
  intros Hl. unfold rotate.
  by rewrite (comm (++)), take_drop.
Qed.

Lemma toy_choice_spec : @choice_spec toy_backend.
Proof.
  intros rs a size Hsize. cbn. split; [|split].
  - eapply sublist_NoDup; [|apply sublist_take]. apply rotate_NoDup, NoDup_seq.
  - rewrite length_take, length_rotate, length_seq. lia.
  - apply Forall_take, Forall_forall. intros p Hp%elem_of_rotate%elem_of_seq. lia.
Qed.





(** C8 applies to the overfitting notebook in the cellar. *)
Lemma features_match_declared_inputs_witness :
  files cellar !! "../data/red-wine.csv" = Some four_wines ∧
  (@overfitting_cell3 toy_backend cellar).1 = Returned cellar_prepared ∧
  length (columns cellar_prepared.1.1.1) = 11 ∧
  accepts (mkModel overfitting_model None) cellar_prepared.1.1.1 = true.
Proof.
  assert (files cellar !! "../data/red-wine.csv" = Some four_wines) as Hfile
    by (vm_compute; reflexivity).
  assert ((@overfitting_cell3 toy_backend cellar).1 = Returned cellar_prepared) as Hret
    by (vm_compute; reflexivity).
  do 2 (split; [done|]).
  destruct (@features_match_declared_inputs toy_backend overfitting_cell3
              overfitting_model cellar four_wines
              cellar_prepared.1.1.1 cellar_prepared.1.1.2
              cellar_prepared.1.2 cellar_prepared.2)
    as (_ & _ & _ & Hcols & _ & _ & Haccepts).
  - left. split; reflexivity.
  - exact Hfile.
  - reflexivity.
  - repeat constructor.
  - exact Hret.
  - split; [exact Hcols|]. apply Haccepts.
Defined.

(** ** Where the data model and the pipeline fall short *)

(** C1: the dropout notebook gives a layer without a unit count to
    [keras.Sequential]. *)
Lemma dropout_layers_carry_no_units :
  ¬ Forall (λ nbk : @nb toy_backend unit, ∀ w,
      ∃ made, calls (nbk w).2 = calls w ++ made ∧
              Forall (Forall carries_units) (configs made))
    (@notebooks toy_backend).
Proof.
  intros Hall. rewrite Forall_forall in Hall.
  destruct (Hall (@dropout_batchnorm toy_backend)) with (w := cellar)
    as (made & Hmade & Hconfigs).
  { unfold notebooks. set_solver. }
  change (calls cellar ++ made) with made in Hmade. subst made.
  vm_compute in Hconfigs.
  apply Forall_cons_1 in Hconfigs as [Hsketch _].
  apply Forall_cons_1 in Hsketch as [[units Hunits] _]. discriminate.
Qed.



(** * Further properties of the cells *)

(** ** The sizes of the two partitions *)

Lemma py_round_near (x : Q) :
  (0 <= x)%Q →
  (x - (1 # 2) <= inject_Z (Z.of_nat (py_round x)) <= x + (1 # 2))%Q.
Proof.
  intros Hx. unfold py_round.
  pose proof (Qfloor_le x) as Hlo. pose proof (Qlt_floor x) as Hhi.
  assert (0 ≤ Qfloor x)%Z as Hf0.
  { change 0%Z with (Qfloor 0). by apply Qfloor_resp_le. }
  rewrite inject_Z_plus in Hhi. change (inject_Z 1) with 1%Q in Hhi.
  destruct (Qcompare_spec (x - inject_Z (Qfloor x)) (1 # 2)) as [Heq|Hlt|Hgt].
  - destruct (Z.even (Qfloor x)).
    + rewrite Z2Nat.id by done. lra.
    + rewrite Z2Nat.id by lia. rewrite inject_Z_plus.
      change (inject_Z 1) with 1%Q. lra.
  - rewrite Z2Nat.id by done. lra.
  - rewrite Z2Nat.id by lia. rewrite inject_Z_plus.
    change (inject_Z 1) with 1%Q. lra.
Qed.

Lemma sample_size_bounds (n : nat) :
  (py_round (0.7 * inject_Z (Z.of_nat n)) = 0 ↔ n = 0) ∧
  (py_round (0.7 * inject_Z (Z.of_nat n)) = n ↔ n ≤ 1).
Proof.
  assert (0 <= inject_Z (Z.of_nat n))%Q as Hn.
  { change 0%Q with (inject_Z 0). rewrite <- Zle_Qle. lia. }
  destruct (py_round_near (0.7 * inject_Z (Z.of_nat n))) as [Hlo Hhi]; [lra|].
  set (k := py_round (0.7 * inject_Z (Z.of_nat n))) in *.
  split; split.
  - intros Hk. rewrite Hk in Hlo. change (inject_Z (Z.of_nat 0)) with 0%Q in Hlo.
    destruct n as [|n]; [done|]. exfalso.
    assert (1 <= inject_Z (Z.of_nat (S n)))%Q.
    { change 1%Q with (inject_Z 1). rewrite <- Zle_Qle. lia. }
    lra.
  - intros ->. done.
  - intros Hk. rewrite Hk in Hhi.
    destruct n as [|[|n]]; [lia..|]. exfalso.
    assert (2 <= inject_Z (Z.of_nat (S (S n))))%Q.
    { change 2%Q with (inject_Z 2). rewrite <- Zle_Qle. lia. }
    lra.
  - intros Hle. destruct n as [|[|n]]; [done..|lia].
Qed.

Section SplitShape.
Context `{Backend}.

(** What the split step returns, read off the two library calls. *)
Lemma split_step_returned red_wine w df_train df_valid :
  (split_step red_wine w).1 = Returned (df_train, df_valid) →
  Frame.take red_wine
    (choice (seeded 0) (length (rows red_wine))
       (py_round (0.7 * inject_Z (Z.of_nat (length (rows red_wine)))))).1
    = Some df_train ∧
  Frame.drop red_wine (Frame.index df_train) = Some df_valid.
Proof.
  unfold split_step, df_sample, df_drop, mbind, nb_bind. cbn.
  change (Qle_bool 0.7 1) with true.
  destruct (Frame.take red_wine _) as [tr|]; cbn; [|done].
  destruct (Frame.drop red_wine (Frame.index tr)) as [vl|] eqn:Hdrop; cbn; [|done].
  by intros [= <- <-].
Qed.

(** X1: the sizes of the split.  When numpy draws without replacement and
    the index has no duplicate, the split step returns two frames under
    the columns of the frame; together they have as many rows as the
    frame; the training frame is empty only for an empty frame, the
    validation frame is empty exactly when the frame has at most one
    row; the validation rows stay in the order of the frame. *)
Theorem split_sizes (red_wine : DataFrame) (w : World) :
  choice_spec →
  NoDup (Frame.index red_wine) →
  ∃ df_train df_valid,
    (split_step red_wine w).1 = Returned (df_train, df_valid) ∧
    columns df_train = columns red_wine ∧
    columns df_valid = columns red_wine ∧
    length (rows df_train) + length (rows df_valid) = length (rows red_wine) ∧
    (rows df_train = [] ↔ rows red_wine = []) ∧
    (rows df_valid = [] ↔ length (rows red_wine) ≤ 1) ∧
    rows df_valid `sublist_of` rows red_wine.
Proof.
  intros Hchoice Hidx.
  set (n := length (rows red_wine)).
  set (size := py_round (0.7 * inject_Z (Z.of_nat n))).
  destruct (Hchoice (seeded 0) n size) as (Hnodup & Hlen & Hbound);
    [apply sample_size_le|].
  destruct (take_is_Some red_wine (choice (seeded 0) n size).1 Hbound)
    as [df_train Htake].
  destruct (take_then_drop _ _ _ Hidx Hnodup Htake)
    as (df_valid & Hdrop & Hcols & Hleft & Hperm).
  exists df_train, df_valid. split.
  { unfold split_step.
    erewrite bind_returned by (by apply df_sample_seeded).
    erewrite bind_returned by (by apply df_drop_returns). done. }
  apply take_Some in Htake as [Hcols' Hrows].
  assert (length (rows df_train) = size) as Htrain
    by (by rewrite <- (Forall2_length _ _ _ Hrows)).
  assert (length (rows df_train) + length (rows df_valid) = n) as Hsum
    by (by rewrite <- length_app, Hperm).
  destruct (sample_size_bounds n) as [Hzero Hall]. fold size in Hzero, Hall.
  do 3 (split; [done|]). split; [|split].
  - rewrite <- !length_zero_iff_nil. fold n. rewrite Htrain. done.
  - rewrite <- length_zero_iff_nil. rewrite <- Hall. lia.
  - rewrite Hleft. apply sublist_filter.
Qed.

End SplitShape.

(** ** More on min-max scaling *)




Section ScalingMore.
Context `{Backend}.




End ScalingMore.

(** ** Features and target *)

(** On a row of twelve cells under the red-wine header, dropping the
    target keeps the first eleven and the target is the twelfth. *)
Lemma quality_is_last (cells : list float64) :
  length cells = 12 →
  ∃ target,
    cells !! 11 = Some target ∧
    cells = Frame.drop_cells red_wine_header "quality" cells ++ [target].
Proof.
  intros Hlen. do 13 (destruct cells as [|? cells]; try done).
  by eexists.
Qed.

Lemma drop_quality_rows df X :
  columns df = red_wine_header →
  Frame.drop_column df "quality" = Some X →
  rows X = prod_map id (Frame.drop_cells red_wine_header "quality") <$> rows df.
Proof.
  intros Hcols. unfold Frame.drop_column. rewrite Hcols.
  case_decide; [|done]. by intros [= <-].
Qed.

Lemma getitem_quality_values df y :
  shaped red_wine_header 12 df →
  Frame.getitem df "quality" = Some y →
  Forall2 (λ (r : nat * list float64) (v : nat * float64),
             v.1 = r.1 ∧ r.2 !! 11 = Some v.2) (rows df) y.
Proof.
  intros [Hcols Hrows]. unfold Frame.getitem, Frame.column_position.
  rewrite Hcols. cbn. intros [= <-].
  induction Hrows as [|[label cells] rs Hlen Hrows IH]; [constructor|].
  cbn in Hlen. destruct (quality_is_last cells Hlen) as (target & Htarget & _).
  cbn. rewrite Htarget. cbn. by constructor.
Qed.

Section FeaturesTarget.
Context `{Backend}.

Lemma features_target_returned df_train df_valid w X_train X_valid y_train y_valid :
  (features_target df_train df_valid w).1 =
    Returned (X_train, X_valid, y_train, y_valid) →
  Frame.drop_column df_train "quality" = Some X_train ∧
  Frame.drop_column df_valid "quality" = Some X_valid ∧
  Frame.getitem df_train "quality" = Some y_train ∧
  Frame.getitem df_valid "quality" = Some y_valid.
Proof.
  unfold features_target, df_drop_axis1, df_getitem, mbind, nb_bind. cbn.
  destruct (Frame.drop_column df_train "quality"); cbn; [|done].
  destruct (Frame.drop_column df_valid "quality"); cbn; [|done].
  destruct (Frame.getitem df_train "quality"); cbn; [|done].
  destruct (Frame.getitem df_valid "quality"); cbn; [|done].
  by intros [= <- <- <- <-].
Qed.

(** X5: features and target make up the rows.  On frames of the twelve
    red-wine columns, the separation returns, for each frame, features
    and a target under the index of the frame, and every row of the
    frame is its row of features followed by its target. *)
Theorem features_and_target_make_up_the_rows (df_train df_valid : DataFrame)
    (w : World) :
  shaped red_wine_header 12 df_train →
  shaped red_wine_header 12 df_valid →
  ∃ X_train X_valid y_train y_valid,
    (features_target df_train df_valid w).1 =
      Returned (X_train, X_valid, y_train, y_valid) ∧
    ∀ df X (y : Series nat),
      (df = df_train ∧ X = X_train ∧ y = y_train) ∨
      (df = df_valid ∧ X = X_valid ∧ y = y_valid) →
      Frame.index X = Frame.index df ∧ y.*1 = Frame.index df ∧
      ∀ i label cells, rows df !! i = Some (label, cells) →
        ∃ features target,
          rows X !! i = Some (label, features) ∧
          y !! i = Some (label, target) ∧
          cells = features ++ [target].
Proof.
  intros Htrain Hvalid.
  destruct (succeeds_features_target (files w) _ _ Htrain Hvalid w eq_refl)
    as ([[[X_train X_valid] y_train] y_valid] & w' & Hrun & _ & _).
  exists X_train, X_valid, y_train, y_valid.
  assert ((features_target df_train df_valid w).1 =
            Returned (X_train, X_valid, y_train, y_valid)) as Hret by (by rewrite Hrun).
  split; [done|].
  destruct (features_target_returned _ _ _ _ _ _ _ Hret) as (HXt & HXv & Hyt & Hyv).
  assert (∀ df X (y : Series nat),
            shaped red_wine_header 12 df →
            Frame.drop_column df "quality" = Some X →
            Frame.getitem df "quality" = Some y →
            Frame.index X = Frame.index df ∧ y.*1 = Frame.index df ∧
            ∀ i label cells, rows df !! i = Some (label, cells) →
              ∃ features target,
                rows X !! i = Some (label, features) ∧
                y !! i = Some (label, target) ∧
                cells = features ++ [target]) as Hone.
  { intros df X y Hdf HX Hy.
    pose proof (drop_quality_rows _ _ (proj1 Hdf) HX) as Hrows.
    pose proof (getitem_quality_values _ _ Hdf Hy) as Hvalues.
    split; [|split].
    - unfold Frame.index. rewrite Hrows, <- list_fmap_compose.
      apply list_fmap_ext. by intros i [label cells].
    - unfold Frame.index. clear -Hvalues.
      induction Hvalues as [|r v rs vs [Hlabel _] _ IH]; [done|].
      cbn. by rewrite Hlabel, IH.
    - intros i label cells Hi.
      destruct (Forall2_lookup_l _ _ _ _ _ Hvalues Hi) as ([label' target] & Hyi & Hl & Ht).
      cbn in Hl, Ht. subst label'.
      destruct Hdf as [_ Hwidth]. rewrite Forall_forall in Hwidth.
      destruct (quality_is_last cells) as (target' & Ht' & Hcells).
      { apply (Hwidth (label, cells)). by eapply list_elem_of_lookup_2. }
      assert (target' = target) as -> by congruence.
      exists (Frame.drop_cells red_wine_header "quality" cells), target.
      split; [|done]. by rewrite Hrows, list_lookup_fmap, Hi. }
  intros df X y [(-> & -> & ->)|(-> & -> & ->)]; by apply Hone.
Qed.

End FeaturesTarget.

(** ** What reaches [fit] *)








Section Fed.
Context `{Backend}.





End Fed.

(** ** The dropout notebook trains on the file as it is *)

Lemma record_splits (rec : list Q) :
  length rec = 12 →
  ∃ features target,
    rec = features ++ [target] ∧
    Frame.drop_cells red_wine_header "quality" (Fin <$> rec) = Fin <$> features ∧
    (Fin <$> rec) !! 11 = Some (Fin target).
Proof.
  intros Hlen. do 13 (destruct rec as [|? rec]; try done).
  by eexists [_; _; _; _; _; _; _; _; _; _; _], _.
Qed.

Lemma frame_of_rows t r :
  r ∈ rows (Frame.frame_of t) → ∃ rec, records t !! r.1 = Some rec ∧ r.2 = Fin <$> rec.
Proof.
  intros [i Hi]%list_elem_of_lookup. unfold Frame.frame_of in Hi. cbn in Hi.
  rewrite list_lookup_imap in Hi.
  destruct (records t !! i) as [rec|] eqn:Hrec; [|done]. injection Hi as <-.
  by exists rec.
Qed.

Section Raw.
Context `{Backend}.

Lemma bind_returned_inv {A B} (m : nb A) (k : A → nb B) w b :
  ((m ≫= k) w).1 = Returned b →
  ∃ a w', m w = (Returned a, w') ∧ (k a w').1 = Returned b.
Proof.
  unfold mbind, nb_bind. destruct (m w) as [[a|e] w'] eqn:Em; [|done].
  intros Hk. by exists a, w'.
Qed.

(** X7: what the dropout notebook trains on.  With a well-formed
    red-wine.csv on disk, its data preparation returns the records of
    the file as they are: each row of features, with its target, is the
    record of the file at the row's label, the last field apart. *)
Theorem dropout_data_is_the_file (w : World) (t : table)
    (X_train X_valid : DataFrame) (y_train y_valid : Series nat) :
  files w !! "../data/red-wine.csv" = Some t →
  header t = red_wine_header →
  Forall (λ r, length r = 12) (records t) →
  (dropout_cell4 w).1 = Returned (X_train, X_valid, y_train, y_valid) →
  ∀ X (y : Series nat), (X = X_train ∧ y = y_train) ∨ (X = X_valid ∧ y = y_valid) →
    Forall2 (λ (r : nat * list float64) (v : nat * float64),
               v.1 = r.1 ∧
               ∃ features target,
                 records t !! r.1 = Some (features ++ [target]) ∧
                 r.2 = Fin <$> features ∧ v.2 = Fin target)
      (rows X) y.
Proof.
  intros Hfile Hheader Hrecords Hret.
  assert (shaped red_wine_header 12 (Frame.frame_of t)) as Hshape.
  { rewrite <- Hheader. by apply shaped_frame_of. }
  unfold dropout_cell4 in Hret.
  do 3 (erewrite bind_returned in Hret by reflexivity).
  erewrite bind_returned in Hret by (by apply pd_read_csv_returns).
  apply bind_returned_inv in Hret as ([df_train df_valid] & w' & Hsplit & Hret).
  apply (f_equal fst) in Hsplit. cbn [fst] in Hsplit.
  apply split_step_returned in Hsplit as [Htake Hdrop].
  apply features_target_returned in Hret as (HXt & HXv & Hyt & Hyv).
  assert (∀ df X (y : Series nat),
            shaped red_wine_header 12 df →
            rows df ⊆ rows (Frame.frame_of t) →
            Frame.drop_column df "quality" = Some X →
            Frame.getitem df "quality" = Some y →
            Forall2 (λ (r : nat * list float64) (v : nat * float64),
                       v.1 = r.1 ∧
                       ∃ features target,
                         records t !! r.1 = Some (features ++ [target]) ∧
                         r.2 = Fin <$> features ∧ v.2 = Fin target)
              (rows X) y) as Hone.
  { intros df X y Hdf Hsub HX Hy.
    rewrite (drop_quality_rows _ _ (proj1 Hdf) HX). apply Forall2_fmap_l.
    pose proof (getitem_quality_values _ _ Hdf Hy) as Hvalues.
    assert (Forall (λ r, r ∈ rows (Frame.frame_of t)) (rows df)) as Hin
      by (by apply Forall_forall).
    clear -Hvalues Hin Hrecords.
    induction Hvalues as [|[label cells] [label' v] rs vs [Hl Hv] _ IH];
      [constructor|].
    apply Forall_cons in Hin as [Hr Hin]. constructor; [|by apply IH].
    cbn in *. subst label'. split; [done|].
    destruct (frame_of_rows t _ Hr) as (rec & Hrec & Hcells). cbn in Hrec, Hcells.
    rewrite Forall_forall in Hrecords.
    destruct (record_splits rec) as (features & target & -> & Hdropped & Hlast).
    { apply Hrecords. by eapply list_elem_of_lookup_2. }
    subst cells. exists features, target. split; [done|]. split; [done|].
    congruence. }
  intros X y [[-> ->]|[-> ->]].
  - apply (Hone df_train); [by eapply shaped_take| |done..].
    intros r Hr. apply take_Some in Htake as [_ Hrows].
    by eapply taken_rows_elem_of.
  - apply (Hone df_valid); [by eapply shaped_drop| |done..].
    intros r Hr. revert Hdrop. unfold Frame.drop. case_decide; [|done].
    intros [= <-]. cbn in Hr. by apply list_elem_of_filter in Hr as [_ Hr].
Qed.

End Raw.

(** ** Where a run stops *)

Section Stops.
Context `{Backend}.

Lemma stops_as {A} fs (m : nb A) e cs cs' :
  stops fs m e cs → cs = cs' → stops fs m e cs'.
Proof. by intros Hm <-. Qed.

Lemma stops_bind_l {A B} fs (m : nb A) (k : A → nb B) e cs :
  stops fs m e cs → stops fs (m ≫= k) e cs.
Proof.
  intros Hm w Hw. destruct (Hm w Hw) as [Hraised Hcalls].
  unfold mbind, nb_bind. destruct (m w) as [[a|e'] w']; cbn in *; [done|].
  injection Hraised as ->. by split.
Qed.

Lemma stops_bind_r {A B} fs (m : nb A) (k : A → nb B) (P : A → Prop) e cs1 cs2 :
  succeeds fs m P → obeys m cs1 → (∀ a, P a → stops fs (k a) e cs2) →
  stops fs (m ≫= k) e (cs1 ++ cs2).
Proof.
  intros Hm Hobeys Hk w Hw. destruct (Hm w Hw) as (a & w' & Hrun & Hw' & Ha).
  destruct (Hobeys w) as [_ Hcalls]. rewrite Hrun in Hcalls. cbn in Hcalls.
  destruct Hcalls as [Hcalls _].
  rewrite (bind_returned _ _ _ _ _ Hrun).
  destruct (Hk a Ha w' Hw') as [Hraised Hcalls']. split; [done|].
  by rewrite Hcalls', Hcalls, app_assoc.
Qed.

Lemma stops_expect_None {A} fs c e : stops fs (called c;; expect (A:=A) None e) e [c].
Proof. by intros w Hw. Qed.

Lemma stops_pd_read_csv fs path :
  fs !! path = None →
  stops fs (pd_read_csv path) (FileNotFoundError path) [call_read_csv path].
Proof.
  intros Hfile w Hw. unfold pd_read_csv, mbind, nb_bind, on_disk. cbn.
  by rewrite Hw, Hfile.
Qed.

Lemma stops_df_drop_axis1 fs df label :
  label ∉ columns df →
  stops fs (df_drop_axis1 df label) KeyError [call_drop_columns label].
Proof.
  intros Hlabel. unfold df_drop_axis1, Frame.drop_column.
  rewrite decide_False by done. apply stops_expect_None.
Qed.


(** The cells, one by one. *)
Create HintDb cells discriminated.

#[local] Hint Resolve obeys_plt_style_use obeys_plt_rc obeys_pd_read_csv
  obeys_df_head obeys_display obeys_keras_Sequential
  obeys_callbacks_EarlyStopping obeys_model_compile obeys_model_summary
  obeys_shown obeys_split_step obeys_features_target obeys_scale_step : cells.

Ltac obeys_cell :=
  lazymatch goal with
  | |- obeys (mret _) _ => apply obeys_mret
  | |- obeys (_ ≫= _) _ =>
      eapply obeys_bind; [obeys_cell | intros ?; repeat case_match; obeys_cell]
  | |- _ => solve [eauto with cells]
  end.

Lemma obeys_overfitting_cell1 :
  obeys overfitting_cell1
    [call_Sequential capacity_model; call_Sequential capacity_wider;
     call_Sequential capacity_deeper].
Proof. unfold overfitting_cell1. eapply obeys_as; [obeys_cell|reflexivity]. Qed.

Lemma obeys_overfitting_cell2 :
  obeys overfitting_cell2 [call_EarlyStopping (mkEarlyStopping 0.001 20 true)].
Proof. apply obeys_callbacks_EarlyStopping. Qed.

Lemma obeys_overfitting_cell3 :
  obeys overfitting_cell3
    [call_read_csv "../data/red-wine.csv"; call_sample 0.7 (Some 0);
     call_drop_index; call_head 4; call_display;
     call_max; call_min; call_sub; call_sub; call_div;
     call_sub; call_sub; call_div;
     call_drop_columns "quality"; call_drop_columns "quality";
     call_getitem "quality"; call_getitem "quality"].
Proof. unfold overfitting_cell3. eapply obeys_as; [obeys_cell|reflexivity]. Qed.

Lemma obeys_overfitting_cell4 :
  obeys overfitting_cell4
    [call_EarlyStopping (mkEarlyStopping 0.001 20 true);
     call_Sequential overfitting_model; call_compile "adam" "mae"].
Proof. unfold overfitting_cell4. eapply obeys_as; [obeys_cell|reflexivity]. Qed.

Lemma obeys_dropout_cell1 : obeys dropout_cell1 [call_Sequential dropout_sketch].
Proof. unfold dropout_cell1. eapply obeys_as; [obeys_cell|reflexivity]. Qed.

Lemma obeys_dropout_cell4 :
  obeys dropout_cell4
    [call_style_use "seaborn-whitegrid"; call_rc "figure"; call_rc "axes";
     call_read_csv "../data/red-wine.csv"; call_sample 0.7 (Some 0);
     call_drop_index;
     call_drop_columns "quality"; call_drop_columns "quality";
     call_getitem "quality"; call_getitem "quality"].
Proof. unfold dropout_cell4. eapply obeys_as; [obeys_cell|reflexivity]. Qed.

Lemma obeys_dropout_cell5 :
  obeys dropout_cell5 [call_Sequential dropout_model; call_summary].
Proof. unfold dropout_cell5. eapply obeys_as; [obeys_cell|reflexivity]. Qed.

Lemma succeeds_keras_Sequential fs config :
  succeeds fs (keras_Sequential config) (λ m, m = mkModel config None).
Proof. by apply succeeds_then, succeeds_mret. Qed.

Lemma succeeds_overfitting_cell1 fs : succeeds fs overfitting_cell1 (λ _, True).
Proof.
  unfold overfitting_cell1.
  do 3 (eapply succeeds_bind; [apply succeeds_keras_Sequential|intros ? _]).
  by apply succeeds_mret.
Qed.

Lemma succeeds_overfitting_cell2 fs : succeeds fs overfitting_cell2 (λ _, True).
Proof. by apply succeeds_then, succeeds_mret. Qed.


Lemma succeeds_dropout_cell1 fs : succeeds fs dropout_cell1 (λ _, True).
Proof.
  unfold dropout_cell1.
  eapply succeeds_bind; [apply succeeds_keras_Sequential|]. intros m _.
  apply succeeds_shown.
Qed.


(** X8: without the data file, both training notebooks end in the
    exception [pd.read_csv] raises, with that call as their last one:
    nothing is split, fitted or plotted. *)
Theorem missing_file_stops_the_run (w : World) :
  files w !! "../data/red-wine.csv" = None →
  (overfitting w).1 = Raised (FileNotFoundError "../data/red-wine.csv") ∧
  calls (overfitting w).2 =
    calls w ++ [call_Sequential capacity_model; call_Sequential capacity_wider;
                call_Sequential capacity_deeper;
                call_EarlyStopping (mkEarlyStopping 0.001 20 true);
                call_read_csv "../data/red-wine.csv"] ∧
  (dropout_batchnorm w).1 = Raised (FileNotFoundError "../data/red-wine.csv") ∧
  calls (dropout_batchnorm w).2 =
    calls w ++ [call_Sequential dropout_sketch;
                call_style_use "seaborn-whitegrid"; call_rc "figure"; call_rc "axes";
                call_read_csv "../data/red-wine.csv"].
Proof.
  intros Hfile.
  assert (stops (files w) overfitting (FileNotFoundError "../data/red-wine.csv")
            [call_Sequential capacity_model; call_Sequential capacity_wider;
             call_Sequential capacity_deeper;
             call_EarlyStopping (mkEarlyStopping 0.001 20 true);
             call_read_csv "../data/red-wine.csv"]) as Hover.
  { unfold overfitting. eapply stops_as.
    - eapply stops_bind_r;
        [apply succeeds_overfitting_cell1|apply obeys_overfitting_cell1|intros _ _].
      eapply stops_bind_r;
        [apply succeeds_overfitting_cell2|apply obeys_overfitting_cell2|intros _ _].
      apply stops_bind_l. unfold overfitting_cell3.
      apply stops_bind_l. by apply stops_pd_read_csv.
    - reflexivity. }
  assert (stops (files w) dropout_batchnorm
            (FileNotFoundError "../data/red-wine.csv")
            [call_Sequential dropout_sketch;
             call_style_use "seaborn-whitegrid"; call_rc "figure"; call_rc "axes";
             call_read_csv "../data/red-wine.csv"]) as Hdrop.
  { unfold dropout_batchnorm. eapply stops_as.
    - eapply stops_bind_r;
        [apply succeeds_dropout_cell1|apply obeys_dropout_cell1|intros _ _].
      eapply stops_bind_r; [apply succeeds_shown|apply obeys_shown|intros _ _].
      eapply stops_bind_r; [apply succeeds_shown|apply obeys_shown|intros _ _].
      apply stops_bind_l. unfold dropout_cell4.
      do 3 (eapply stops_bind_r;
              [apply succeeds_called|apply obeys_calls_only|intros _ _]).
      apply stops_bind_l. by apply stops_pd_read_csv.
    - reflexivity. }
  destruct (Hover w eq_refl) as [? ?]. destruct (Hdrop w eq_refl) as [? ?]. done.
Qed.

Lemma succeeds_df_head fs df n : succeeds fs (df_head df n) (λ _, True).
Proof. by apply succeeds_then, succeeds_mret. Qed.

Lemma succeeds_display fs df : succeeds fs (display df) (λ _, True).
Proof. apply succeeds_then, succeeds_shown. Qed.


Section OnATable.
Variables (fs : gmap string table) (t : table).
Hypothesis Hchoice : choice_spec.
Hypothesis Hfile : fs !! "../data/red-wine.csv" = Some t.
Hypothesis Hrecords : Forall (λ r, length r = length (header t)) (records t).

Lemma stops_overfitting_cell3 :
  "quality" ∉ header t →
  stops fs overfitting_cell3 KeyError
    [call_read_csv "../data/red-wine.csv"; call_sample 0.7 (Some 0);
     call_drop_index; call_head 4; call_display;
     call_max; call_min; call_sub; call_sub; call_div;
     call_sub; call_sub; call_div; call_drop_columns "quality"].
Proof.
  intros Hlabel. unfold overfitting_cell3. eapply stops_as.
  - eapply stops_bind_r;
      [by apply succeeds_pd_read_csv|apply obeys_pd_read_csv|intros red_wine ->].
    eapply stops_bind_r;
      [apply succeeds_split_step; [done|by apply shaped_frame_of]
      |apply obeys_split_step|intros [df_train df_valid] [Htrain Hvalid]].
    eapply stops_bind_r; [apply succeeds_df_head|apply obeys_df_head|intros top _].
    eapply stops_bind_r; [apply succeeds_display|apply obeys_display|intros _ _].
    eapply stops_bind_r;
      [by apply (succeeds_scale_step _ (header t))|apply obeys_scale_step
      |intros [scaled_train scaled_valid] [Hstrain Hsvalid]].
    unfold features_target. apply stops_bind_l, stops_df_drop_axis1.
    destruct Hstrain as [Hcols _]. cbn in Hcols. by rewrite Hcols.
  - reflexivity.
Qed.

Lemma stops_dropout_cell4 :
  "quality" ∉ header t →
  stops fs dropout_cell4 KeyError
    [call_style_use "seaborn-whitegrid"; call_rc "figure"; call_rc "axes";
     call_read_csv "../data/red-wine.csv"; call_sample 0.7 (Some 0);
     call_drop_index; call_drop_columns "quality"].
Proof.
  intros Hlabel. unfold dropout_cell4. eapply stops_as.
  - do 3 (eapply stops_bind_r;
            [apply succeeds_called|apply obeys_calls_only|intros _ _]).
    eapply stops_bind_r;
      [by apply succeeds_pd_read_csv|apply obeys_pd_read_csv|intros red_wine ->].
    eapply stops_bind_r;
      [apply succeeds_split_step; [done|by apply shaped_frame_of]
      |apply obeys_split_step|intros [df_train df_valid] [Htrain Hvalid]].
    unfold features_target. apply stops_bind_l, stops_df_drop_axis1.
    destruct Htrain as [Hcols _]. cbn in Hcols. by rewrite Hcols.
  - reflexivity.
Qed.



Lemma stops_overfitting_without_target :
  "quality" ∉ header t →
  stops fs overfitting KeyError
    [call_Sequential capacity_model; call_Sequential capacity_wider;
     call_Sequential capacity_deeper;
     call_EarlyStopping (mkEarlyStopping 0.001 20 true);
     call_read_csv "../data/red-wine.csv"; call_sample 0.7 (Some 0);
     call_drop_index; call_head 4; call_display;
     call_max; call_min; call_sub; call_sub; call_div;
     call_sub; call_sub; call_div; call_drop_columns "quality"].
Proof.
  intros Hlabel. unfold overfitting. eapply stops_as.
  - eapply stops_bind_r;
      [apply succeeds_overfitting_cell1|apply obeys_overfitting_cell1|intros _ _].
    eapply stops_bind_r;
      [apply succeeds_overfitting_cell2|apply obeys_overfitting_cell2|intros _ _].
    by apply stops_bind_l, stops_overfitting_cell3.
  - reflexivity.
Qed.

Lemma stops_dropout_without_target :
  "quality" ∉ header t →
  stops fs dropout_batchnorm KeyError
    [call_Sequential dropout_sketch;
     call_style_use "seaborn-whitegrid"; call_rc "figure"; call_rc "axes";
     call_read_csv "../data/red-wine.csv"; call_sample 0.7 (Some 0);
     call_drop_index; call_drop_columns "quality"].
Proof.
  intros Hlabel. unfold dropout_batchnorm. eapply stops_as.
  - eapply stops_bind_r;
      [apply succeeds_dropout_cell1|apply obeys_dropout_cell1|intros _ _].
    eapply stops_bind_r; [apply succeeds_shown|apply obeys_shown|intros _ _].
    eapply stops_bind_r; [apply succeeds_shown|apply obeys_shown|intros _ _].
    by apply stops_bind_l, stops_dropout_cell4.
  - reflexivity.
Qed.




End OnATable.

(** X9: without a target column.  When the data file is well formed but
    has no quality column, a training notebook ends in a KeyError,
    raised by the first [drop('quality', axis=1)], before any call to
    fit or plot. *)
Theorem missing_target_stops_before_the_model (nbk : nb unit) (w : World)
    (t : table) :
  choice_spec →
  nbk ∈ training_notebooks →
  files w !! "../data/red-wine.csv" = Some t →
  Forall (λ r, length r = length (header t)) (records t) →
  "quality" ∉ header t →
  (nbk w).1 = Raised KeyError ∧
  ∃ made, calls (nbk w).2 = calls w ++ made ∧
          last made = Some (call_drop_columns "quality") ∧
          Forall (λ c, step_of c ≠ Fit ∧ step_of c ≠ Plot) made.
Proof.
  intros Hchoice Hin Hfile Hrecords Hlabel. unfold training_notebooks in Hin.
  apply elem_of_cons in Hin as [->|Hin];
    [|apply list_elem_of_singleton in Hin as ->].
  - destruct (stops_overfitting_without_target _ t Hchoice Hfile Hrecords Hlabel
                w eq_refl) as [Hraised Hcalls].
    split; [done|]. eexists. split; [exact Hcalls|]. split; [reflexivity|].
    repeat (apply Forall_cons_2; [by split|]). apply Forall_nil_2.
  - destruct (stops_dropout_without_target _ t Hchoice Hfile Hrecords Hlabel
                w eq_refl) as [Hraised Hcalls].
    split; [done|]. eexists. split; [exact Hcalls|]. split; [reflexivity|].
    repeat (apply Forall_cons_2; [by split|]). apply Forall_nil_2.
Qed.


End Stops.

(** ** What the notebooks never do *)

Section Never.
Context `{Backend}.

(** X11: the split step cannot miss a label.  The only exception it can
    end in is the IndexError of a draw outside the frame; when numpy
    draws as documented it returns, whatever the index of the frame. *)
Theorem split_fails_only_on_a_bad_draw (red_wine : DataFrame) (w : World) :
  (∀ e, (split_step red_wine w).1 = Raised e → e = IndexError) ∧
  (choice_spec → ∃ p, (split_step red_wine w).1 = Returned p).
Proof.
  assert (∀ df_train locs, Frame.take red_wine locs = Some df_train →
            is_Some (Frame.drop red_wine (Frame.index df_train))) as Hdrop.
  { intros df_train locs [_ Hrows]%take_Some. unfold Frame.drop.
    rewrite decide_True; [by eexists|].
    intros i (r & -> & Hr)%list_elem_of_fmap. apply list_elem_of_fmap.
    exists r. split; [done|]. by eapply taken_rows_elem_of. }
  split.
  - intros e. unfold split_step, df_sample, df_drop, mbind, nb_bind. cbn.
    change (Qle_bool 0.7 1) with true.
    destruct (Frame.take red_wine _) as [df_train|] eqn:Htake; cbn;
      [|by intros [= <-]].
    destruct (Hdrop _ _ Htake) as [df_valid Hvalid]. by rewrite Hvalid.
  - intros Hchoice.
    destruct (Hchoice (seeded 0) (length (rows red_wine))
                (py_round (0.7 * inject_Z (Z.of_nat (length (rows red_wine))))))
      as (_ & _ & Hbound); [apply sample_size_le|].
    destruct (take_is_Some red_wine _ Hbound) as [df_train Htake].
    destruct (Hdrop _ _ Htake) as [df_valid Hvalid].
    exists (df_train, df_valid). unfold split_step.
    erewrite bind_returned by (by apply df_sample_seeded).
    erewrite bind_returned by (by apply df_drop_returns). done.
Qed.

Lemma avoids_bind {A B} e (m : nb A) (k : A → nb B) (P : A → Prop) :
  avoids e m → ensures m P → (∀ a, P a → avoids e (k a)) → avoids e (m ≫= k).
Proof.
  intros Hm Hp Hk w. unfold mbind, nb_bind.
  destruct (m w) as [[a|e'] w'] eqn:Em.
  - apply Hk, (Hp w). by rewrite Em.
  - cbn. intros [= ->]. apply (Hm w). by rewrite Em.
Qed.

Lemma avoids_then {A B} e (m : nb A) (k : A → nb B) :
  avoids e m → (∀ a, avoids e (k a)) → avoids e (m ≫= k).
Proof. intros Hm Hk. by apply (avoids_bind _ _ _ (λ _, True)). Qed.

(** A program raises only what one of its calls can raise. *)
Lemma obeys_avoids {A} e (m : nb A) cs :
  obeys m cs → Forall (λ c, ¬ may_raise c e) cs → avoids e m.
Proof.
  intros Hm Hcs w Hraised. destruct (Hm w) as [_ Hw]. rewrite Hraised in Hw.
  destruct Hw as [_ (before & c & _ & Hpre & Hmay)].
  rewrite Forall_forall in Hcs. apply (Hcs c); [|done].
  destruct Hpre as [rest ->]. rewrite !elem_of_app. left. right. by left.
Qed.

Lemma avoids_model_fit model args :
  is_Some (compiled model) → avoids RuntimeError (model_fit model args).
Proof.
  intros [settings Hcompiled] w. unfold model_fit, mbind, nb_bind. cbn.
  rewrite Hcompiled. by case_match.
Qed.

Ltac no_such_call :=
  repeat (apply Forall_cons_2; [by intros []|]); apply Forall_nil_2.

(** X12: fit follows compile.  No run of any notebook ends in the
    RuntimeError of fitting a model that was not compiled. *)
Theorem fit_follows_compile : Forall (avoids RuntimeError) notebooks.
Proof.
  unfold notebooks. repeat apply Forall_cons_2; [..|apply Forall_nil_2].
  - eapply obeys_avoids; [apply obeys_single_neuron|no_such_call].
  - eapply obeys_avoids; [apply obeys_deep_neural_networks|no_such_call].
  - unfold overfitting.
    apply avoids_then;
      [eapply obeys_avoids; [apply obeys_overfitting_cell1|no_such_call]|intros _].
    apply avoids_then;
      [eapply obeys_avoids; [apply obeys_overfitting_cell2|no_such_call]|intros _].
    apply avoids_then;
      [eapply obeys_avoids; [apply obeys_overfitting_cell3|no_such_call]|].
    intros [[[X_train X_valid] y_train] y_valid].
    eapply avoids_bind;
      [eapply obeys_avoids; [apply obeys_overfitting_cell4|no_such_call]
      |apply overfitting_cell4_returns|].
    intros [early_stopping model] [_ Hmodel]. cbn in Hmodel. subst model.
    unfold overfitting_cell5.
    apply avoids_then; [by apply avoids_model_fit|intros history].
    apply avoids_then;
      [eapply obeys_avoids; [apply obeys_plot_history|no_such_call]|intros history_df].
    apply avoids_then;
      [eapply obeys_avoids; [apply obeys_df_getitem|no_such_call]|intros val].
    apply avoids_then;
      [eapply obeys_avoids; [apply obeys_series_min|no_such_call]|intros lowest].
    eapply obeys_avoids; [apply obeys_print|no_such_call].
  - unfold dropout_batchnorm.
    apply avoids_then;
      [eapply obeys_avoids; [apply obeys_dropout_cell1|no_such_call]|intros _].
    apply avoids_then;
      [eapply obeys_avoids; [apply obeys_shown|no_such_call]|intros _].
    apply avoids_then;
      [eapply obeys_avoids; [apply obeys_shown|no_such_call]|intros _].
    apply avoids_then;
      [eapply obeys_avoids; [apply obeys_dropout_cell4|no_such_call]|].
    intros [[[X_train X_valid] y_train] y_valid].
    apply avoids_then;
      [eapply obeys_avoids; [apply obeys_dropout_cell5|no_such_call]|intros model].
    unfold dropout_cell6.
    eapply (avoids_bind _ _ _ (λ m, is_Some (compiled m))).
    { eapply obeys_avoids; [apply obeys_model_compile|no_such_call]. }
    { intros w m. unfold model_compile, mbind, nb_bind. cbn. intros [= <-]. by eexists. }
    intros compiled_model Hcompiled.
    apply avoids_then; [by apply avoids_model_fit|intros history].
    apply avoids_then;
      [eapply obeys_avoids; [apply obeys_plot_history|no_such_call]|intros history_df].
    by intros w.
Qed.

(** *** numpy's global generator *)

Lemma spares_mret {A} (a : A) : spares_numpy (mret a).
Proof. by intros w. Qed.

Lemma spares_bind {A B} (m : nb A) (k : A → nb B) :
  spares_numpy m → (∀ a, spares_numpy (k a)) → spares_numpy (m ≫= k).
Proof.
  intros Hm Hk w. unfold mbind, nb_bind. specialize (Hm w).
  destruct (m w) as [[a|e] w']; cbn in *; [|done]. by rewrite Hk.
Qed.

Lemma spares_called c : spares_numpy (called c).
Proof. by intros w. Qed.

Lemma spares_shown o : spares_numpy (shown o).
Proof. by intros w. Qed.

Lemma spares_raise {A} e : spares_numpy (raise (A:=A) e).
Proof. by intros w. Qed.

Lemma spares_expect {A} (o : option A) e : spares_numpy (expect o e).
Proof. intros w. by destruct o. Qed.

Lemma spares_on_disk path : spares_numpy (on_disk path).
Proof. by intros w. Qed.

Lemma spares_training model args : spares_numpy (training model args).
Proof. by intros w. Qed.

(** A seeded draw comes from a generator of its own. *)
Lemma spares_draw_seeded seed a size : spares_numpy (draw (Some seed) a size).
Proof. by intros w. Qed.

Ltac spare :=
  repeat first
    [ apply spares_mret | apply spares_called | apply spares_shown
    | apply spares_raise | apply spares_expect | apply spares_on_disk
    | apply spares_training | apply spares_draw_seeded
    | apply spares_bind; [|intros ?]
    | case_match ].

Lemma spares_pd_read_csv path : spares_numpy (pd_read_csv path).
Proof. unfold pd_read_csv. spare. Qed.

Lemma spares_df_sample_seeded df frac seed :
  spares_numpy (df_sample df frac (Some seed)).
Proof. unfold df_sample. spare. Qed.

Lemma spares_df_drop df labels : spares_numpy (df_drop df labels).
Proof. unfold df_drop. spare. Qed.

Lemma spares_df_drop_axis1 df label : spares_numpy (df_drop_axis1 df label).
Proof. unfold df_drop_axis1. spare. Qed.

Lemma spares_df_getitem df label : spares_numpy (df_getitem df label).
Proof. unfold df_getitem. spare. Qed.

Lemma spares_df_head df n : spares_numpy (df_head df n).
Proof. unfold df_head. spare. Qed.

Lemma spares_display df : spares_numpy (display df).
Proof. unfold display. spare. Qed.

Lemma spares_df_max df : spares_numpy (df_max df).
Proof. unfold df_max. spare. Qed.

Lemma spares_df_min df : spares_numpy (df_min df).
Proof. unfold df_min. spare. Qed.

Lemma spares_df_sub df s : spares_numpy (df_sub df s).
Proof. unfold df_sub. spare. Qed.

Lemma spares_series_sub s1 s2 : spares_numpy (series_sub s1 s2).
Proof. unfold series_sub. spare. Qed.

Lemma spares_df_div df s : spares_numpy (df_div df s).
Proof. unfold df_div. spare. Qed.

Lemma spares_series_min s : spares_numpy (series_min s).
Proof. unfold series_min. spare. Qed.

Lemma spares_print template args : spares_numpy (print template args).
Proof. unfold print. spare. Qed.

Lemma spares_plot_history history : spares_numpy (plot_history history).
Proof. unfold plot_history, pd_DataFrame, df_loc, df_plot. spare. Qed.

Lemma spares_keras_Sequential config : spares_numpy (keras_Sequential config).
Proof. unfold keras_Sequential. spare. Qed.

Lemma spares_callbacks_EarlyStopping d p r :
  spares_numpy (callbacks_EarlyStopping d p r).
Proof. unfold callbacks_EarlyStopping. spare. Qed.

Lemma spares_model_compile model optimizer loss_name :
  spares_numpy (model_compile model optimizer loss_name).
Proof. unfold model_compile. spare. Qed.

Lemma spares_model_summary model : spares_numpy (model_summary model).
Proof. unfold model_summary. spare. Qed.

Lemma spares_model_fit model args : spares_numpy (model_fit model args).
Proof. unfold model_fit. spare. Qed.

Create HintDb spares discriminated.

#[local] Hint Resolve spares_pd_read_csv spares_df_sample_seeded spares_df_drop
  spares_df_drop_axis1 spares_df_getitem spares_df_head spares_display
  spares_df_max spares_df_min spares_df_sub spares_series_sub spares_df_div
  spares_series_min spares_print spares_plot_history
  spares_keras_Sequential spares_callbacks_EarlyStopping spares_model_compile
  spares_model_summary spares_model_fit spares_called spares_shown : spares.

Ltac spare_cell :=
  lazymatch goal with
  | |- spares_numpy (mret _) => apply spares_mret
  | |- spares_numpy (_ ≫= _) =>
      apply spares_bind; [spare_cell | intros ?; repeat case_match; spare_cell]
  | |- _ => solve [eauto with spares]
  end.

(** X13: the global generator is left alone.  Every run of every
    notebook leaves numpy's global generator in the state it found it
    in: the one sample taken is drawn from a generator of its own. *)
Theorem the_global_generator_is_left_alone : Forall spares_numpy notebooks.
Proof.
  unfold notebooks. repeat apply Forall_cons_2; [..|apply Forall_nil_2].
  - unfold single_neuron. spare_cell.
  - unfold deep_neural_networks. spare_cell.
  - unfold overfitting, overfitting_cell1, overfitting_cell2, overfitting_cell3,
      overfitting_cell4, overfitting_cell5, split_step, scale_step,
      features_target.
    spare_cell.
  - unfold dropout_batchnorm, dropout_cell1, dropout_cell2, dropout_cell3,
      dropout_cell4, dropout_cell5, dropout_cell6, split_step, features_target,
      plt_style_use, plt_rc.
    spare_cell.
Qed.

End Never.

(** ** The learning curves *)

Lemma history_rows_selected (g : nat → nat) (ps : list (float64 * float64)) :
  prod_map id (λ cells : list float64, omap (λ j, cells !! j) [0; 1])
    <$> imap (λ i (p : float64 * float64), (g i, [p.1; p.2])) ps
  = imap (λ i (p : float64 * float64), (g i, [p.1; p.2])) ps.
Proof.
  revert g. induction ps as [|p ps IH]; intros g; [done|].
  cbn. f_equal. apply (IH (g ∘ S)).
Qed.

Lemma history_val_loss (g : nat → nat) (l1 l2 : list float64) :
  length l1 = length l2 →
  (omap (λ r : nat * list float64, pair r.1 <$> r.2 !! 1)
     (imap (λ i (p : float64 * float64), (g i, [p.1; p.2])) (zip l1 l2))).*2 = l2.
Proof.
  revert g l2. induction l1 as [|a l1 IH]; intros g [|b l2] Hlen; try done.
  cbn. f_equal. apply (IH (g ∘ S)). by injection Hlen.
Qed.

Lemma loc_history h :
  Frame.loc_columns (history_frame h) ["loss"; "val_loss"] = Some (history_frame h).
Proof.
  assert (mapM (Frame.column_position (history_frame h)) ["loss"; "val_loss"]
          = Some [0; 1]) as Hpositions by reflexivity.
  unfold Frame.loc_columns. rewrite Hpositions. cbn [mbind option_bind].
  unfold history_frame. cbn [rows columns]. f_equal. f_equal.
  exact (history_rows_selected (λ i, i) _).
Qed.

Lemma getitem_val_loss h :
  length (loss h) = length (val_loss h) →
  ∃ val, Frame.getitem (history_frame h) "val_loss" = Some val ∧
         val.*2 = val_loss h.
Proof.
  intros Hlen.
  assert (Frame.column_position (history_frame h) "val_loss" = Some 1) as Hposition
    by reflexivity.
  unfold Frame.getitem. rewrite Hposition. cbn [mbind option_bind].
  eexists. split; [done|]. exact (history_val_loss (λ i, i) _ _ Hlen).
Qed.

Section Curves.
Context `{Backend}.

(** X14: the printed minimum is the lowest point of the curve.  When the
    model is compiled and accepts the data, and training reports as many
    validation losses as losses, the last cell of the overfitting
    notebook returns after showing the curves of the whole history and
    printing the minimum of the validation losses; when these are
    finite, it is one of them and none is lower. *)
Theorem the_printed_minimum_is_the_lowest_point (X_train X_valid : DataFrame)
    (y_train y_valid : Series nat) (early_stopping : EarlyStopping)
    (model : Model) (w : World) (history : History) :
  is_Some (compiled model) →
  accepts model X_train = true →
  accepts model X_valid = true →
  history =
    (optimise (tf_random w) model
       (mkFitArgs X_train y_train (X_valid, y_valid) 256 500 [early_stopping] 0)).1 →
  length (loss history) = length (val_loss history) →
  (overfitting_cell5 X_train X_valid y_train y_valid early_stopping model w).1
    = Returned tt ∧
  outputs
    (overfitting_cell5 X_train X_valid y_train y_valid early_stopping model w).2
    = outputs w ++
        [out_figure (history_frame history);
         out_text "Minimum validation loss: {}"
           [Frame.reduce fmin (val_loss history)]] ∧
  (Forall (λ v, is_finite v = true) (val_loss history) →
   val_loss history ≠ [] →
   ∃ lowest, Frame.reduce fmin (val_loss history) = Fin lowest ∧
             Fin lowest ∈ val_loss history ∧
             ∀ v, Fin v ∈ val_loss history → (lowest <= v)%Q).
Proof.
  intros [settings Hcompiled] Hx Hv -> Hlen.
  destruct (getitem_val_loss _ Hlen) as (val & Hval & Hvalues).
  split; [|split].
  - unfold overfitting_cell5, model_fit, training, plot_history, pd_DataFrame,
      df_loc, df_plot, df_getitem, series_min, print, mbind, nb_bind.
    cbn -[Frame.loc_columns Frame.getitem history_frame Frame.reduce].
    rewrite Hcompiled, Hx, Hv.
    cbn -[Frame.loc_columns Frame.getitem history_frame Frame.reduce].
    rewrite loc_history.
    cbn -[Frame.loc_columns Frame.getitem history_frame Frame.reduce].
    by rewrite Hval.
  - unfold overfitting_cell5, model_fit, training, plot_history, pd_DataFrame,
      df_loc, df_plot, df_getitem, series_min, print, mbind, nb_bind.
    cbn -[Frame.loc_columns Frame.getitem history_frame Frame.reduce].
    rewrite Hcompiled, Hx, Hv.
    cbn -[Frame.loc_columns Frame.getitem history_frame Frame.reduce].
    rewrite loc_history.
    cbn -[Frame.loc_columns Frame.getitem history_frame Frame.reduce].
    rewrite Hval.
    cbn -[Frame.loc_columns Frame.getitem history_frame Frame.reduce].
    by rewrite Hvalues, <- app_assoc.
  - intros Hfinite Hne. by apply reduce_fmin_finite.
Qed.

End Curves.

(** ** The further properties, in the cellar *)

Lemma four_wines_shaped : shaped red_wine_header 12 (Frame.frame_of four_wines).
Proof. split; [done|]. repeat constructor. Qed.

(** X1 on the four wines: three rows to train on, one to validate. *)
Lemma split_sizes_witness :
  @choice_spec toy_backend ∧
  NoDup (Frame.index (Frame.frame_of four_wines)) ∧
  ∃ df_train df_valid,
    (@split_step toy_backend (Frame.frame_of four_wines) cellar).1
      = Returned (df_train, df_valid) ∧
    length (rows df_train) + length (rows df_valid) = 4.
Proof.
  split; [exact toy_choice_spec|].
  split; [rewrite frame_of_index; apply NoDup_seq|].
  destruct (@split_sizes toy_backend (Frame.frame_of four_wines) cellar
              toy_choice_spec)
    as (df_train & df_valid & Hrun & _ & _ & Hsum & _).
  { rewrite frame_of_index. apply NoDup_seq. }
  by exists df_train, df_valid.
Defined.



(** X5 on the four wines. *)
Lemma features_and_target_make_up_the_rows_witness :
  shaped red_wine_header 12 (Frame.frame_of four_wines) ∧
  ∃ X_train X_valid y_train y_valid,
    (@features_target toy_backend (Frame.frame_of four_wines)
       (Frame.frame_of four_wines) cellar).1
      = Returned (X_train, X_valid, y_train, y_valid) ∧
    y_train.*1 = [0; 1; 2; 3].
Proof.
  split; [exact four_wines_shaped|].
  destruct (@features_and_target_make_up_the_rows toy_backend
              (Frame.frame_of four_wines) (Frame.frame_of four_wines) cellar
              four_wines_shaped four_wines_shaped)
    as (X_train & X_valid & y_train & y_valid & Hrun & Hparts).
  exists X_train, X_valid, y_train, y_valid. split; [exact Hrun|].
  destruct (Hparts (Frame.frame_of four_wines) X_train y_train
              (or_introl (conj eq_refl (conj eq_refl eq_refl))))
    as (_ & Hlabels & _).
  exact Hlabels.
Defined.


(** X7 in the cellar. *)
Lemma dropout_data_is_the_file_witness :
  files cellar !! "../data/red-wine.csv" = Some four_wines ∧
  (@dropout_cell4 toy_backend cellar).1 = Returned cellar_raw ∧
  Forall2 (λ (r : nat * list float64) (v : nat * float64),
             v.1 = r.1 ∧
             ∃ features target,
               records four_wines !! r.1 = Some (features ++ [target]) ∧
               r.2 = Fin <$> features ∧ v.2 = Fin target)
    (rows cellar_raw.1.1.1) cellar_raw.1.2.
Proof.
  assert (files cellar !! "../data/red-wine.csv" = Some four_wines) as Hfile
    by (vm_compute; reflexivity).
  assert ((@dropout_cell4 toy_backend cellar).1 = Returned cellar_raw) as Hret
    by (vm_compute; reflexivity).
  do 2 (split; [done|]).
  apply (@dropout_data_is_the_file toy_backend cellar four_wines
           cellar_raw.1.1.1 cellar_raw.1.1.2 cellar_raw.1.2 cellar_raw.2).
  - exact Hfile.
  - reflexivity.
  - repeat constructor.
  - exact Hret.
  - left. split; reflexivity.
Defined.

(** X8 in the cellar without its data file. *)
Lemma missing_file_stops_the_run_witness :
  files empty_cellar !! "../data/red-wine.csv" = None ∧
  (@overfitting toy_backend empty_cellar).1 =
    Raised (FileNotFoundError "../data/red-wine.csv").
Proof.
  assert (files empty_cellar !! "../data/red-wine.csv" = None) as Hfile
    by (vm_compute; reflexivity).
  split; [exact Hfile|].
  exact (proj1 (@missing_file_stops_the_run toy_backend empty_cellar Hfile)).
Defined.

(** X9 in the cellar whose file has no target column. *)
Lemma missing_target_stops_before_the_model_witness :
  @choice_spec toy_backend ∧
  (@overfitting toy_backend unlabelled_cellar).1 = Raised KeyError.
Proof.
  split; [exact toy_choice_spec|].
  refine (proj1 (@missing_target_stops_before_the_model toy_backend
                   (@overfitting toy_backend) unlabelled_cellar
                   (mkTable red_wine_features _) toy_choice_spec _ _ _ _)).
  - unfold training_notebooks. apply elem_of_cons. by left.
  - vm_compute. reflexivity.
  - repeat constructor.
  - unfold red_wine_features. cbn. intros Hin.
    repeat (apply elem_of_cons in Hin as [Hin|Hin]; [discriminate|]).
    by apply elem_of_nil in Hin.
Defined.


(** X14 in the cellar: of the validation losses 0.5, 0.375 and 0.4375
    the second is printed. *)
Lemma the_printed_minimum_is_the_lowest_point_witness :
  accepts (mkModel overfitting_model (Some ("adam", "mae")))
    cellar_prepared.1.1.1 = true ∧
  outputs
    (@overfitting_cell5 toy_backend cellar_prepared.1.1.1 cellar_prepared.1.1.2
       cellar_prepared.1.2 cellar_prepared.2 (mkEarlyStopping 0.001 20 true)
       (mkModel overfitting_model (Some ("adam", "mae"))) cellar).2
    = [out_figure
         (history_frame
            (mkHistory [Fin 0.5; Fin 0.25; Fin 0.125] [Fin 0.5; Fin 0.375; Fin 0.4375]));
       out_text "Minimum validation loss: {}" [Fin 0.375]].
Proof.
  split; [reflexivity|].
  refine (proj1 (proj2
    (@the_printed_minimum_is_the_lowest_point toy_backend
       cellar_prepared.1.1.1 cellar_prepared.1.1.2
       cellar_prepared.1.2 cellar_prepared.2 (mkEarlyStopping 0.001 20 true)
       (mkModel overfitting_model (Some ("adam", "mae"))) cellar
       (mkHistory [Fin 0.5; Fin 0.25; Fin 0.125] [Fin 0.5; Fin 0.375; Fin 0.4375])
       _ _ _ _ _))).
  - by eexists.
  - reflexivity.
  - reflexivity.
  - reflexivity.
  - reflexivity.
Defined.

